(** * PeerDrop (app.py): rooms, the /ws handler, /upload and /download

    A shallow embedding of [src/app.py].

    - The module-level dictionary [rooms] is a [gmap] from codes to room
      records; a websocket object is identified by a number.
    - Mutation of [rooms], [ws.send], exceptions and the [while True] of
      [generate_code] are carried by a small state-and-exception monad in
      which the state survives a [raise].
    - [random.choices] reads a stream of naturals; [json.loads] and
      [json.dumps] are library code, a frame is represented by the value
      they relate it to; [send_file] refuses a name with a line break and
      answers a [Range] request from the range.
    - Handlers of several connections and the two HTTP views are
      interleaved in [step].

    The definitions come first, the properties of the code after them. *)

From Stdlib Require Import Strings.Ascii Strings.String Strings.Byte ZArith Lia.
From stdpp Require Import gmap strings list.

Local Open Scope string_scope.
Local Open Scope list_scope.

(** ** Values *)

(** A websocket connection object ([ws]); only its identity matters. *)
Definition chan := nat.

(** The content of an uploaded file ([file.read()]). *)
Definition bytes := list Byte.byte.

(** What [json.loads] returns and what [json.dumps] is given.  Numbers are
    never inspected by the handlers, integers stand for all of them. *)
#[warnings="-register-all"]
Inductive json :=
| JNull
| JBool (b : bool)
| JNum (n : Z)
| JStr (s : string)
| JArr (l : list json)
| JObj (d : list (string * json)).

(** [d.get(k)] on a Python dict. *)
Fixpoint dict_get (k : string) (d : list (string * json)) : option json :=
  match d with
  | [] => None
  | (k', v) :: d' => if decide (k' = k) then Some v else dict_get k d'
  end.

(** [str.upper()] on ASCII text: the letters [a] to [z] are folded, every
    other ASCII character is kept.  Outside ASCII [str.upper()] folds
    further letters; a statement that depends on the outcome of the fold
    is made for ASCII text. *)
Definition upper_ascii (c : ascii) : ascii :=
  let n := nat_of_ascii c in
  if (97 <=? n)%nat && (n <=? 122)%nat then ascii_of_nat (n - 32) else c.

Fixpoint upper (s : string) : string :=
  match s with
  | EmptyString => EmptyString
  | String c s' => String (upper_ascii c) (upper s')
  end.

(** ** The registry *)

(** One entry of [rooms]:
    [{'sender': ws, 'receiver': ws, 'filename': name, 'file_data': data}]. *)
Record room := Room {
  sender : option chan;
  receiver : option chan;
  filename : option string;
  file_data : option bytes
}.

Definition set_receiver (c : chan) (r : room) : room :=
  {| sender := sender r; receiver := Some c;
     filename := filename r; file_data := file_data r |}.

Definition set_payload (name : string) (data : bytes) (r : room) : room :=
  {| sender := sender r; receiver := receiver r;
     filename := Some name; file_data := Some data |}.

(** The process-wide state: the dictionary [rooms], the websocket objects
    whose connection is gone (on which [send] raises), every frame sent so
    far (in order, with its destination) and the position reached in the
    stream of random draws. *)
Record world := World {
  rooms : gmap string room;
  closed : gset chan;
  sent : list (chan * json);
  rpos : nat
}.

Definition with_rooms (f : gmap string room -> gmap string room) (w : world) : world :=
  {| rooms := f (rooms w); closed := closed w; sent := sent w; rpos := rpos w |}.

Definition with_sent (f : list (chan * json) -> list (chan * json)) (w : world) : world :=
  {| rooms := rooms w; closed := closed w; sent := f (sent w); rpos := rpos w |}.

Definition with_closed (f : gset chan -> gset chan) (w : world) : world :=
  {| rooms := rooms w; closed := f (closed w); sent := sent w; rpos := rpos w |}.

Definition with_rpos (p : nat) (w : world) : world :=
  {| rooms := rooms w; closed := closed w; sent := sent w; rpos := p |}.

(** ** Effects *)

Inductive exn :=
  ConnectionClosed | JSONDecodeError | AttributeError | ValueError | TypeError.

(** A computation returns, raises, or is still running when the fuel given
    to a [while True] is spent. *)
Inductive res (A : Type) :=
| Ok (a : A)
| Raise (e : exn)
| Diverge.
Arguments Ok {A} a.
Arguments Raise {A} e.
Arguments Diverge {A}.

(** State is kept when an exception is raised: what was mutated before the
    [raise] stays mutated. *)
Definition M (S A : Type) : Type := S -> res A * S.

Definition ret {S A} (a : A) : M S A := fun s => (Ok a, s).

Definition bind {S A B} (m : M S A) (k : A -> M S B) : M S B :=
  fun s =>
    match m s with
    | (Ok a, s') => k a s'
    | (Raise e, s') => (Raise e, s')
    | (Diverge, s') => (Diverge, s')
    end.

Definition raise {S A} (e : exn) : M S A := fun s => (Raise e, s).
Definition gets {S A} (f : S -> A) : M S A := fun s => (Ok (f s), s).
Definition modify {S} (f : S -> S) : M S unit := fun s => (Ok tt, f s).

(** [try: m  except: pass] *)
Definition try_pass {S} (m : M S unit) : M S unit :=
  fun s =>
    match m s with
    | (Raise _, s') => (Ok tt, s')
    | r => r
    end.

Declare Scope py_scope.
Delimit Scope py_scope with py.
Notation "x <- c1 ;; c2" := (bind c1 (fun x => c2))
  (at level 100, c1 at next level, right associativity) : py_scope.
Notation "c1 ;; c2" := (bind c1 (fun _ => c2))
  (at level 100, right associativity) : py_scope.
Local Open Scope py_scope.

(** [ws.send(json.dumps(m))]: raises once the connection is gone. *)
Definition send (c : chan) (m : json) : M world unit :=
  fun w =>
    if decide (c ∈ closed w) then (Raise ConnectionClosed, w)
    else (Ok tt, with_sent (fun l => l ++ [(c, m)]) w).

(** The frames of the protocol, as the dicts handed to [json.dumps]. *)
Definition msg_code_generated (code : string) : json :=
  JObj [("type", JStr "code_generated"); ("code", JStr code)].
Definition msg_receiver_joined : json :=
  JObj [("type", JStr "receiver_joined")].
Definition msg_wating_for_file : json :=
  JObj [("type", JStr "wating_for_file")].
Definition msg_error (message : string) : json :=
  JObj [("type", JStr "error"); ("message", JStr message)].
Definition msg_file_ready (name : string) (size : nat) : json :=
  JObj [("type", JStr "file_ready"); ("filename", JStr name);
        ("filesize", JNum (Z.of_nat size))].

(** The ["type"] of a frame that was sent. *)
Definition msg_type_of (m : json) : option json :=
  match m with
  | JObj d => dict_get "type" d
  | _ => None
  end.

(** ** [generate_code]

    [random.choices(string.ascii_uppercase + string.digits, k=length)]
    draws [length] characters; the random source is a stream of naturals
    [draws], each reduced to an index into the 36-character population. *)

Definition population : list ascii :=
  list_ascii_of_string "ABCDEFGHIJKLMNOPQRSTUVWXYZ0123456789".

Definition choice (r : nat) : ascii := nth (r mod 36) population "A"%char.

Section Random.

Variable draws : nat -> nat.

Fixpoint choices (pos k : nat) : string :=
  match k with
  | 0 => EmptyString
  | S k' => String (choice (draws pos)) (choices (S pos) k')
  end.

(** The [while True] loop: draw a candidate, return it when it is not a key
    of [rooms], otherwise go round again.  [fuel] bounds the iterations the
    model follows; the source has no bound. *)
Fixpoint generate_code (fuel : nat) (length : nat) : M world string :=
  match fuel with
  | 0 => fun w => (Diverge, w)
  | S fuel' =>
      pos <- gets rpos ;;
      let code := choices pos length in
      modify (with_rpos (pos + length)) ;;
      rs <- gets rooms ;;
      if decide (is_Some (rs !! code)) then generate_code fuel' length
      else ret code
  end.

(** ** The [/ws] handler *)

Inductive role := RSender | RReceiver.

(** The locals [my_code] and [my_role] of one running handler, next to the
    shared state. *)
Record hstate := HState {
  my_code : option string;
  my_role : option role;
  hworld : world
}.

Definition set_my_code (c : string) (h : hstate) : hstate :=
  {| my_code := Some c; my_role := my_role h; hworld := hworld h |}.
Definition set_my_role (r : role) (h : hstate) : hstate :=
  {| my_code := my_code h; my_role := Some r; hworld := hworld h |}.

(** Run an action on the shared state from inside a handler. *)
Definition in_world {A} (m : M world A) : M hstate A :=
  fun h =>
    let (r, w') := m (hworld h) in
    (r, {| my_code := my_code h; my_role := my_role h; hworld := w' |}).

(** What [ws.receive()] handed over: falsy data ([None], an empty string),
    a text on which [json.loads] raises, or the value [json.loads] returns. *)
Inductive frame :=
| Falsy
| Malformed
| Parsed (message : json).

Definition new_room (ws : chan) : room :=
  {| sender := Some ws; receiver := None; filename := None; file_data := None |}.

(** [message.get(k)]: only a dict has [get]. *)
Definition py_get {S} (message : json) (k : string) : M S (option json) :=
  match message with
  | JObj d => ret (dict_get k d)
  | _ => raise AttributeError
  end.

(** [message.get('code', '').upper()]: only a string has [upper]. *)
Definition code_upper {S} (v : option json) : M S string :=
  match v with
  | None => ret (upper "")
  | Some (JStr s) => ret (upper s)
  | Some _ => raise AttributeError
  end.

Definition is_type (v : option json) (t : string) : bool :=
  match v with
  | Some (JStr s) => bool_decide (s = t)
  | _ => false
  end.

(** The branch [msg_type == 'register_sender']. *)
Definition register_sender (fuel : nat) (ws : chan) : M hstate unit :=
  modify (set_my_role RSender) ;;
  code <- in_world (generate_code fuel 5) ;;
  modify (set_my_code code) ;;
  in_world (modify (with_rooms (insert code (new_room ws)))) ;;
  in_world (send ws (msg_code_generated code)).

(** The branch [msg_type == 'register_receiver'].  A websocket object is
    truthy, so [not rooms[code]['receiver']] holds exactly when the slot is
    [None]. *)
Definition register_receiver (ws : chan) (message : json) : M hstate unit :=
  v <- py_get message "code" ;;
  code <- code_upper v ;;
  rs <- in_world (gets rooms) ;;
  match rs !! code with
  | Some r =>
      match receiver r with
      | None =>
          modify (set_my_role RReceiver) ;;
          modify (set_my_code code) ;;
          in_world (modify (with_rooms (insert code (set_receiver ws r)))) ;;
          match sender r with
          | Some sender_ws => in_world (send sender_ws msg_receiver_joined)
          | None => ret tt
          end ;;
          in_world (send ws msg_wating_for_file)
      | Some _ =>
          in_world (send ws (msg_error "Invalid or expired code."))
      end
  | None => in_world (send ws (msg_error "Invalid or expired code."))
  end.

(** The body of the [while True] loop for one received [data]. *)
Definition on_data (fuel : nat) (ws : chan) (data : frame) : M hstate unit :=
  match data with
  | Falsy => ret tt
  | Malformed => raise JSONDecodeError
  | Parsed message =>
      msg_type <- py_get message "type" ;;
      if is_type msg_type "register_sender" then register_sender fuel ws
      else if is_type msg_type "register_receiver" then register_receiver ws message
      else ret tt
  end.

(** The [finally] block. *)
Definition cleanup : M hstate unit :=
  c <- gets my_code ;;
  rl <- gets my_role ;;
  rs <- in_world (gets rooms) ;;
  match c with
  | Some code =>
      if bool_decide (code = "") then ret tt
      else
        match rs !! code with
        | Some r =>
            match rl, receiver r, sender r with
            | Some RSender, Some receiver_ws, _ =>
                try_pass (in_world (send receiver_ws (msg_error "Sender disconnected.")))
            | Some RReceiver, _, Some sender_ws =>
                try_pass (in_world (send sender_ws (msg_error "Receiver disconnected.")))
            | _, _, _ => ret tt
            end ;;
            in_world (modify (with_rooms (delete code)))
        | None => ret tt
        end
  | None => ret tt
  end.

(** The connection of [ws] is gone from now on. *)
Definition close (ws : chan) : M world unit :=
  modify (with_closed (union {[ws]})).

(** The [try] block on the frames the peer sends before it goes away: when
    they are used up, [ws.receive()] raises on the closed connection. *)
Fixpoint receive_loop (fuel : nat) (ws : chan) (frames : list frame) : M hstate unit :=
  match frames with
  | [] =>
      in_world (close ws) ;;
      raise ConnectionClosed
  | data :: frames' =>
      on_data fuel ws data ;;
      receive_loop fuel ws frames'
  end.

(** [try: body  except Exception: pass  finally: fin] *)
Definition try_except_finally {S} (body fin : M S unit) : M S unit :=
  fun s =>
    match body s with
    | (Diverge, s') => (Diverge, s')
    | (_, s') => fin s'
    end.

Definition fresh (w : world) : hstate :=
  {| my_code := None; my_role := None; hworld := w |}.

(** [websocket(ws)]: the locals start as [None]; the loop sits in the
    [try]; once the function returns the connection is closed. *)
Definition websocket (fuel : nat) (ws : chan) (frames : list frame) : M world unit :=
  fun w =>
    let (o, h) :=
      (try_except_finally (receive_loop fuel ws frames) cleanup ;;
       in_world (close ws)) (fresh w) in
    (o, hworld h).

End Random.

(** ** [/upload] and [/download] *)

(** [request.files['file']]: a submitted part with its filename and content. *)
Record file_storage := FileStorage {
  fs_filename : string;
  fs_read : bytes
}.

(** The form of a [POST /upload]: [request.form.get('code')] and
    [request.files.get('file')]. *)
Record upload_request := UploadRequest {
  form_code : option string;
  files_file : option file_storage
}.

(** What a view returns: a text with a status, or what [send_file]
    answers: the whole of [data] as an attachment named [download_name]
    ([SendFile]), or its answer to a request that carries a [Range] header
    over the same body and name ([SendRange]: the part of [data] the header
    selects, or a refusal of the range). *)
Inductive response :=
| Text (body : string) (status : nat)
| SendFile (data : bytes) (download_name : option string)
| SendRange (range : string) (data : bytes) (download_name : string).

(** Python truthiness of an optional string: [None] and [''] are falsy. *)
Definition truthy (c : option string) : option string :=
  match c with
  | Some s => if bool_decide (s = "") then None else Some s
  | None => None
  end.

(** [upload_file()].  An exception that leaves the view (a [send] on a
    closed websocket) is the [Raise] outcome. *)
Definition upload_file (req : upload_request) : M world response :=
  rs <- gets rooms ;;
  match files_file req, truthy (form_code req) with
  | Some file, Some code =>
      match rs !! code with
      | Some r =>
          if bool_decide (fs_filename file = "") then ret (Text "No selected file" 400)
          else
            let data := fs_read file in
            modify (with_rooms (insert code (set_payload (fs_filename file) data r))) ;;
            match receiver r with
            | Some receiver_ws =>
                send receiver_ws (msg_file_ready (fs_filename file) (length data)) ;;
                ret (Text "File uploaded and receiver notified." 200)
            | None => ret (Text "Receiver not connected." 400)
            end
      | None => ret (Text "Invalid request" 400)
      end
  | _, _ => ret (Text "Invalid request" 400)
  end.

(** A [GET /download]: [request.args.get('code')], and the [Range] header
    that [send_file] reads from the request. *)
Record download_request := DownloadRequest {
  args_code : option string;
  headers_range : option string
}.

(** A carriage return or a line feed occurs in [s]. *)
Definition has_newline (s : string) : bool :=
  existsb (fun c => bool_decide (c = "010"%char) || bool_decide (c = "013"%char))
    (list_ascii_of_string s).

(** [send_file(io.BytesIO(data), as_attachment=True, download_name=name)]
    in the context of a request with the given [Range] header.  Without a
    name the MIME type cannot be guessed ([TypeError]); the name goes into
    the [Content-Disposition] header, and a header value with a carriage
    return or a line feed is refused ([ValueError]); a request with a
    [Range] header is answered from the range. *)
Definition send_file {S} (range : option string) (data : bytes)
    (download_name : option string) : M S response :=
  match download_name with
  | None => raise TypeError
  | Some name =>
      if has_newline name then raise ValueError
      else
        match range with
        | None => ret (SendFile data (Some name))
        | Some rg => ret (SendRange rg data name)
        end
  end.

(** [download_file()] on a request. *)
Definition download_view (req : download_request) : M world response :=
  rs <- gets rooms ;;
  match truthy (args_code req) with
  | Some code =>
      match rs !! code with
      | Some r =>
          match file_data r with
          | Some data => send_file (headers_range req) data (filename r)
          | None => ret (Text "File not found or link expired." 404)
          end
      | None => ret (Text "Invalid download link." 400)
      end
  | None => ret (Text "Invalid download link." 400)
  end.

(** [download_file()] on a request with the query argument [code] and no
    [Range] header. *)
Definition download_file (arg_code : option string) : M world response :=
  download_view {| args_code := arg_code; headers_range := None |}.

(** The state of a server that has just started. *)
Definition w0 : world :=
  {| rooms := ∅; closed := ∅; sent := []; rpos := 0 |}.

(** ** Several connections at once

    Handlers of different connections and the two views interleave; one
    iteration of a handler's loop, one [finally] block and one view are
    taken as atomic.  [conns] keeps the locals of the running handlers.  A
    download leaves the state as it is whatever its headers, so its event
    carries the code only. *)

Record sys := Sys {
  sworld : world;
  conns : gmap chan (option string * option role)
}.

Inductive event :=
| EvRecv (ws : chan) (data : frame)
| EvClose (ws : chan)
| EvUpload (req : upload_request)
| EvDownload (arg_code : option string).

Definition handler_of (s : sys) (ws : chan) : hstate :=
  match conns s !! ws with
  | Some (c, r) => {| my_code := c; my_role := r; hworld := sworld s |}
  | None => fresh (sworld s)
  end.

(** The handler of [ws] leaves its loop. *)
Definition leave (ws : chan) (s : sys) (h : hstate) : sys :=
  let h' := snd ((cleanup ;; in_world (close ws)) h) in
  {| sworld := hworld h'; conns := delete ws (conns s) |}.

Section System.

Variable draws : nat -> nat.
Variable fuel : nat.

(** [None]: a [generate_code] is still looping when the fuel is spent. *)
Definition step (s : sys) (e : event) : option sys :=
  match e with
  | EvRecv ws data =>
      if decide (ws ∈ closed (sworld s)) then Some s
      else
        match on_data draws fuel ws data (handler_of s ws) with
        | (Ok _, h) =>
            Some {| sworld := hworld h;
                    conns := <[ws := (my_code h, my_role h)]> (conns s) |}
        | (Raise _, h) => Some (leave ws s h)
        | (Diverge, _) => None
        end
  | EvClose ws =>
      if decide (ws ∈ closed (sworld s)) then Some s
      else
        let h := handler_of s ws in
        Some (leave ws s (snd (in_world (close ws) h)))
  | EvUpload req =>
      Some {| sworld := snd (upload_file req (sworld s)); conns := conns s |}
  | EvDownload arg_code =>
      Some {| sworld := snd (download_file arg_code (sworld s)); conns := conns s |}
  end.

Fixpoint run (s : sys) (es : list event) : option sys :=
  match es with
  | [] => Some s
  | e :: es' =>
      match step s e with
      | Some s' => run s' es'
      | None => None
      end
  end.

(** Along [es] nobody uploads to [code] and the room of [code] is never
    removed. *)
Definition names_room (code : string) (e : event) : bool :=
  match e with
  | EvUpload req => bool_decide (truthy (form_code req) = Some code)
  | _ => false
  end.

Fixpoint undisturbed (code : string) (s : sys) (es : list event) : bool :=
  match es with
  | [] => true
  | e :: es' =>
      negb (names_room code e) &&
      match step s e with
      | Some s' =>
          bool_decide (is_Some (rooms (sworld s') !! code)) && undisturbed code s' es'
      | None => false
      end
  end.

End System.

Definition sys0 : sys := {| sworld := w0; conns := ∅ |}.

(** The events of one connection: its frames, then the peer goes away. *)
Definition conn_events (ws : chan) (frames : list frame) : list event :=
  map (EvRecv ws) frames ++ [EvClose ws].

(** A frame is a [register_sender] request. *)
Definition is_reg_sender (data : frame) : bool :=
  match data with
  | Parsed (JObj d) => is_type (dict_get "type" d) "register_sender"
  | _ => false
  end.

(** The candidate drawn at the [j]-th iteration of a [generate_code]
    started in [w]. *)
Definition candidate (draws : nat -> nat) (w : world) (length j : nat) : string :=
  choices draws (rpos w + j * length) length.

(** The room of [code] holds the payload [(name, data)]. *)
Definition has_payload (code name : string) (data : bytes) (w : world) : Prop :=
  exists r, rooms w !! code = Some r /\ filename r = Some name /\ file_data r = Some data.

(** ** Scenarios *)

Definition reg_sender : frame :=
  Parsed (JObj [("type", JStr "register_sender")]).
Definition reg_receiver (code : string) : frame :=
  Parsed (JObj [("type", JStr "register_receiver"); ("code", JStr code)]).

(** A random source that counts up: the first code is [ABCDE], the next
    [FGHIJ], and so on. *)
Definition counting : nat -> nat := fun i => i.

(** A random source stuck on one value: every candidate is [AAAAA]. *)
Definition stuck : nat -> nat := fun _ => 0.

(** The spec's scenario: the sender is issued [AB12C]. *)
Definition draws_ab12c : nat -> nat := fun i => nth i [0; 1; 27; 28; 2] 0.

Definition w_waiting : world :=
  hworld (snd (on_data draws_ab12c 1 1 reg_sender (fresh w0))).

Definition w_paired : world :=
  hworld (snd (on_data draws_ab12c 1 2 (reg_receiver "ab12c") (fresh w_waiting))).

Definition report_pdf : file_storage :=
  {| fs_filename := "report.pdf"; fs_read := [x25; x50; x44; x46] |}.

(** What a sender leaves behind that registers twice and goes away: the
    room [ABCDE] of its first registration, with its sender's connection
    closed. *)
Definition w_gone : world :=
  snd (websocket counting 1 1 [reg_sender; reg_sender] w0).

(** A registry in which [AAAAA] is taken. *)
Definition w_taken : world :=
  with_rooms (insert "AAAAA" (new_room 1)) w0.

Definition empty_txt : file_storage :=
  {| fs_filename := "empty.txt"; fs_read := [] |}.

Definition unnamed_blob : file_storage :=
  {| fs_filename := ""; fs_read := [x25; x50] |}.

(** A file whose name is [a], a line feed, [b.txt]. *)
Definition newline_txt : file_storage :=
  {| fs_filename := String "a" (String "010" "b.txt"); fs_read := [x68; x69] |}.

(** A sender that registers a second time after its file was relayed, and
    then goes away. *)
Definition twice_registered : list event :=
  [EvRecv 1 reg_sender;
   EvRecv 2 (reg_receiver "abcde");
   EvUpload {| form_code := Some "ABCDE"; files_file := Some report_pdf |};
   EvRecv 1 reg_sender;
   EvClose 1].

(** Activity on other rooms, a refused second join and two downloads. *)
Definition after_upload : list event :=
  [EvDownload (Some "ABCDE");
   EvRecv 3 reg_sender;
   EvRecv 4 (reg_receiver "fghij");
   EvUpload {| form_code := Some "FGHIJ"; files_file := Some empty_txt |};
   EvRecv 5 (reg_receiver "abcde");
   EvClose 4;
   EvDownload (Some "ABCDE")].

(** ** Shapes kept by the code *)

(** A code as [generate_code] builds it for a room: five characters of the
    population. *)
Definition code_shape (code : string) : Prop :=
  String.length code = 5 /\
  Forall (fun c => c ∈ population) (list_ascii_of_string code).

(** A room as the handlers leave it: the sender slot is filled, and the
    two payload fields are set together. *)
Definition room_ok (r : room) : Prop :=
  is_Some (sender r) /\ (is_Some (filename r) <-> is_Some (file_data r)).

Definition registry_ok (w : world) : Prop :=
  forall code r, rooms w !! code = Some r -> code_shape code /\ room_ok r.

(** A text of ASCII characters only. *)
Definition ascii_text (s : string) : bool :=
  forallb (fun c => (nat_of_ascii c <? 128)%nat) (list_ascii_of_string s).

(** A frame is one of the two requests of the protocol. *)
Definition is_request (data : frame) : bool :=
  match data with
  | Parsed (JObj d) =>
      is_type (dict_get "type" d) "register_sender"
      || is_type (dict_get "type" d) "register_receiver"
  | _ => false
  end.

(** ** Tactics *)

Ltac unfold_m :=
  unfold bind, ret, gets, modify, raise, try_pass, in_world in *; simpl in *.

(** Closed goals about a concrete run are settled by evaluation. *)
Ltac by_eval := vm_compute; reflexivity.

(** * Properties *)

(** ** [generate_code] *)

Section GenerateCode.

Variable draws : nat -> nat.

Lemma generate_code_first_free fuel length w k :
  (forall j, j < k -> is_Some (rooms w !! candidate draws w length j)) ->
  rooms w !! candidate draws w length k = None ->
  k < fuel ->
  generate_code draws fuel length w
  = (Ok (candidate draws w length k), with_rpos (rpos w + S k * length) w).
Proof.
  revert fuel w. induction k as [|k IH]; intros fuel w Hbusy Hfree Hfuel.
  - destruct fuel as [|fuel]; [lia|]. simpl. unfold_m.
    unfold candidate in Hfree. simpl in Hfree. rewrite Nat.add_0_r in Hfree.
    destruct (decide (is_Some (rooms w !! choices draws (rpos w) length))) as [[r Hr]|_].
    + congruence.
    + unfold candidate. simpl. by rewrite !Nat.add_0_r.
  - destruct fuel as [|fuel]; [lia|]. simpl. unfold_m.
    destruct (decide (is_Some (rooms w !! choices draws (rpos w) length))) as [_|Hn].
    + set (w' := with_rpos (rpos w + length) w).
      assert (Hc : forall j, candidate draws w' length j = candidate draws w length (S j)).
      { intros j. unfold candidate, w'. simpl. f_equal. lia. }
      rewrite (IH fuel w').
      * rewrite Hc. unfold w', with_rpos. simpl. do 2 f_equal. lia.
      * intros j Hj. rewrite Hc. apply Hbusy. lia.
      * by rewrite Hc.
      * lia.
    + exfalso. apply Hn. specialize (Hbusy 0 ltac:(lia)).
      unfold candidate in Hbusy. simpl in Hbusy. by rewrite Nat.add_0_r in Hbusy.
Qed.

Lemma generate_code_all_taken fuel length w :
  (forall j, j < fuel -> is_Some (rooms w !! candidate draws w length j)) ->
  fst (generate_code draws fuel length w) = Diverge.
Proof.
  revert w. induction fuel as [|fuel IH]; intros w Hbusy; [done|].
  simpl. unfold_m.
  destruct (decide (is_Some (rooms w !! choices draws (rpos w) length))) as [_|Hn].
  - apply IH. intros j Hj. specialize (Hbusy (S j) ltac:(lia)).
    unfold candidate in *. simpl in *.
    replace (rpos w + length + j * length) with (rpos w + (length + j * length)) by lia.
    done.
  - exfalso. apply Hn. specialize (Hbusy 0 ltac:(lia)).
    unfold candidate in Hbusy. simpl in Hbusy. by rewrite Nat.add_0_r in Hbusy.
Qed.

(** Whatever [generate_code] returns is not a key of [rooms], and the call
    changes nothing but the position in the random stream. *)
Lemma generate_code_ok fuel length w code w' :
  generate_code draws fuel length w = (Ok code, w') ->
  rooms w !! code = None /\ exists p, w' = with_rpos p w.
Proof.
  revert w. induction fuel as [|fuel IH]; intros w; [done|].
  simpl. unfold_m.
  destruct (decide (is_Some (rooms w !! choices draws (rpos w) length))) as [_|Hn].
  - intros H. apply IH in H as [H1 [p ->]]. simpl in *. split; [done|].
    by exists p.
  - intros [= <- <-]. split.
    + destruct (rooms w !! _) eqn:E; [|done]. exfalso. apply Hn. by eexists.
    + by eexists.
Qed.

Lemma generate_code_no_raise fuel length w e w' :
  generate_code draws fuel length w <> (Raise e, w').
Proof.
  revert w. induction fuel as [|fuel IH]; intros w; [done|].
  simpl. unfold_m.
  destruct (decide (is_Some (rooms w !! choices draws (rpos w) length))); [apply IH|done].
Qed.

End GenerateCode.

Lemma stuck_candidate w j : candidate stuck w 5 j = "AAAAA".
Proof. reflexivity. Qed.

(** C6, as stated, fails: no number of retries bounds [generate_code].  With
    [AAAAA] taken and a random source that keeps drawing [AAAAA], the loop
    is still running after any number of iterations, and no cap turns this
    into a failure of the request. *)
Lemma generate_code_no_retry_cap :
  (forall fuel, fst (generate_code stuck fuel 5 w_taken) = Diverge) /\
  ~ (exists cap, forall draws w, fst (generate_code draws cap 5 w) <> Diverge).
Proof.
  assert (H : forall fuel, fst (generate_code stuck fuel 5 w_taken) = Diverge).
  { intros fuel. apply generate_code_all_taken. intros j _.
    rewrite stuck_candidate. by eexists. }
  split; [exact H|]. intros [cap Hcap]. exact (Hcap stuck w_taken (H cap)).
Qed.

(** C6, amended: [generate_code] has no retry cap and no exhaustion failure.
    It draws candidates until one is not a key of [rooms]: when the first [k]
    candidates collide and the next one is free, the call returns that one
    after exactly [k] retries ([k] iterations are not enough, [k + 1] are),
    the code returned is not in the registry, and the registry is untouched. *)
Theorem generate_code_returns_first_free draws length w k :
  (forall j, j < k -> is_Some (rooms w !! candidate draws w length j)) ->
  rooms w !! candidate draws w length k = None ->
  (forall fuel, k < fuel ->
     exists w', generate_code draws fuel length w = (Ok (candidate draws w length k), w') /\
                rooms w' = rooms w /\ sent w' = sent w /\ closed w' = closed w /\
                rooms w' !! candidate draws w length k = None) /\
  (forall fuel, fuel <= k -> fst (generate_code draws fuel length w) = Diverge).
Proof.
  intros Hbusy Hfree. split.
  - intros fuel Hfuel. eexists. split.
    + by apply generate_code_first_free.
    + done.
  - intros fuel Hfuel. apply generate_code_all_taken.
    intros j Hj. apply Hbusy. lia.
Qed.

Lemma generate_code_returns_first_free_witness :
  ((forall j, j < 1 -> is_Some (rooms w_taken !! candidate (fun i => i - 4) w_taken 5 j)) /\
   rooms w_taken !! candidate (fun i => i - 4) w_taken 5 1 = None) /\
  exists w', generate_code (fun i => i - 4) 2 5 w_taken = (Ok "BCDEF", w') /\
             rooms w' = rooms w_taken.
Proof.
  assert (Hb : forall j, j < 1 -> is_Some (rooms w_taken !! candidate (fun i => i - 4) w_taken 5 j)).
  { intros j Hj. assert (j = 0) as -> by lia. by eexists. }
  assert (Hf : rooms w_taken !! candidate (fun i => i - 4) w_taken 5 1 = None) by reflexivity.
  split; [by split|].
  destruct (generate_code_returns_first_free (fun i => i - 4) 5 w_taken 1 Hb Hf) as [H _].
  destruct (H 2 ltac:(lia)) as (w' & H1 & H2 & _).
  exists w'. by split.
Defined.

(** ** [/upload] *)

Lemma send_rooms c m w : rooms (snd (send c m w)) = rooms w.
Proof. unfold send. by case_decide. Qed.

Lemma send_open c m w :
  c ∉ closed w -> send c m w = (Ok tt, with_sent (fun l => l ++ [(c, m)]) w).
Proof. intros H. unfold send. by case_decide. Qed.

Lemma send_closed c m w :
  c ∈ closed w -> send c m w = (Raise ConnectionClosed, w).
Proof. intros H. unfold send. by case_decide. Qed.

Lemma truthy_Some c code : truthy c = Some code <-> c = Some code /\ code <> "".
Proof.
  unfold truthy. destruct c as [s|]; [|by intuition].
  case_bool_decide; split.
  - done.
  - intros [[= ->] Hn]. done.
  - intros [= ->]. done.
  - intros [[= ->] _]. done.
Qed.

Lemma upload_no_receiver req w code file r :
  truthy (form_code req) = Some code ->
  files_file req = Some file ->
  fs_filename file <> "" ->
  rooms w !! code = Some r ->
  receiver r = None ->
  upload_file req w
  = (Ok (Text "Receiver not connected." 400),
     with_rooms (insert code (set_payload (fs_filename file) (fs_read file) r)) w).
Proof.
  intros Hc Hf Hn Hr Hrc. unfold upload_file. unfold_m.
  rewrite Hf, Hc, Hr. rewrite bool_decide_eq_false_2 by done. by rewrite Hrc.
Qed.

(** C1, on the code: an upload to a room without a receiver answers 400
    [Receiver not connected.] after the payload has been written into the
    room: the registry is not what it was before the call, and a download
    then serves the file of the refused upload. *)
Theorem upload_without_receiver_stores_payload :
  let req := {| form_code := Some "AB12C"; files_file := Some report_pdf |} in
  rooms w_waiting !! "AB12C" = Some (new_room 1) /\
  fst (upload_file req w_waiting) = Ok (Text "Receiver not connected." 400) /\
  rooms (snd (upload_file req w_waiting)) !! "AB12C"
  = Some {| sender := Some 1; receiver := None;
            filename := Some "report.pdf"; file_data := Some [x25; x50; x44; x46] |} /\
  rooms (snd (upload_file req w_waiting)) <> rooms w_waiting /\
  fst (download_file (Some "AB12C") (snd (upload_file req w_waiting)))
  = Ok (SendFile [x25; x50; x44; x46] (Some "report.pdf")).
Proof.
  intros req.
  assert (H0 : rooms w_waiting !! "AB12C" = Some (new_room 1)) by by_eval.
  assert (H1 : rooms (snd (upload_file req w_waiting)) !! "AB12C"
    = Some {| sender := Some 1; receiver := None;
            filename := Some "report.pdf"; file_data := Some [x25; x50; x44; x46] |})
    by by_eval.
  split; [exact H0|]. split; [by_eval|]. split; [exact H1|]. split.
  - intros E. rewrite E, H0 in H1. discriminate.
  - by_eval.
Qed.

(** C2, as stated, fails in both directions.  In a room with a bound
    receiver, a named file with no bytes at all is accepted (200, and
    [file_ready] with [filesize] 0 goes to the receiver), while non-empty
    bytes submitted under an empty filename are refused. *)
Lemma upload_success_ignores_payload_bytes :
  (exists r, rooms w_paired !! "AB12C" = Some r /\ receiver r = Some 2) /\
  fs_read empty_txt = [] /\
  upload_file {| form_code := Some "AB12C"; files_file := Some empty_txt |} w_paired
  = (Ok (Text "File uploaded and receiver notified." 200),
     with_sent (fun l => l ++ [(2, msg_file_ready "empty.txt" 0)])
       (with_rooms (insert "AB12C"
          {| sender := Some 1; receiver := Some 2;
             filename := Some "empty.txt"; file_data := Some [] |}) w_paired)) /\
  fs_read unnamed_blob <> [] /\
  upload_file {| form_code := Some "AB12C"; files_file := Some unnamed_blob |} w_paired
  = (Ok (Text "No selected file" 400), w_paired).
Proof.
  split; [eexists; split; by_eval|]. split; [done|]. split; [by_eval|].
  split; [done|]. by_eval.
Qed.

(** C2, amended: take a room whose receiver, if one is bound, has its
    connection open.  [POST /upload] returns success exactly when the code
    is non-empty and names that room, a receiver is bound to it and a file
    part with a non-empty filename is submitted (its bytes may be empty);
    then exactly one [file_ready] goes to that receiver.  In every other
    case the answer is a 400 and nothing is sent. *)
Theorem upload_file_success_iff req w :
  (forall code r c, form_code req = Some code -> rooms w !! code = Some r ->
                    receiver r = Some c -> c ∉ closed w) ->
  let o := fst (upload_file req w) in
  let w' := snd (upload_file req w) in
  ((exists body, o = Ok (Text body 200)) <->
   (exists code file r c,
      form_code req = Some code /\ code <> "" /\ rooms w !! code = Some r /\
      files_file req = Some file /\ fs_filename file <> "" /\
      receiver r = Some c)) /\
  (forall code file r c,
      form_code req = Some code -> code <> "" -> rooms w !! code = Some r ->
      files_file req = Some file -> fs_filename file <> "" ->
      receiver r = Some c ->
      o = Ok (Text "File uploaded and receiver notified." 200) /\
      sent w' = sent w ++ [(c, msg_file_ready (fs_filename file) (length (fs_read file)))]) /\
  (~ (exists body, o = Ok (Text body 200)) ->
   sent w' = sent w /\ exists body, o = Ok (Text body 400)).
Proof.
  intros Hopen. unfold upload_file. unfold_m.
  destruct (files_file req) as [file|] eqn:Hf; simpl.
  2:{ split; [|split].
      - split; [intros [b [=]]|]. intros (?&?&?&?&?&?&?&?&?); congruence.
      - intros; congruence.
      - intros _. split; [done|]. by eexists. }
  destruct (truthy (form_code req)) as [code|] eqn:Hc; simpl.
  2:{ split; [|split].
      - split; [intros [b [=]]|].
        intros (code&?&?&?&Hc1&Hc2&?).
        assert (truthy (form_code req) = Some code) by (by apply truthy_Some).
        congruence.
      - intros code ? ? ? Hc1 Hc2.
        assert (truthy (form_code req) = Some code) by (by apply truthy_Some).
        congruence.
      - intros _. split; [done|]. by eexists. }
  apply truthy_Some in Hc as [Hc Hne].
  destruct (rooms w !! code) as [r|] eqn:Hr; simpl.
  2:{ split; [|split].
      - split; [intros [b [=]]|]. intros (?&?&?&?&?&?&?&?); congruence.
      - intros; congruence.
      - intros _. split; [done|]. by eexists. }
  case_bool_decide as Hn; simpl.
  { split; [|split].
    - split; [intros [b [=]]|]. intros (?&?&?&?&?&?&?&?&?&?); congruence.
    - intros; congruence.
    - intros _. split; [done|]. by eexists. }
  destruct (receiver r) as [c|] eqn:Hrc; simpl.
  2:{ split; [|split].
      - split; [intros [b [=]]|]. intros (?&?&?&?&?&?&?&?&?&?); congruence.
      - intros; congruence.
      - intros _. split; [done|]. by eexists. }
  rewrite send_open by (by apply (Hopen code r c)). simpl.
  split; [|split].
  - split; [|by eexists]. intros _. by exists code, file, r, c.
  - intros; by simplify_eq.
  - intros H. exfalso. apply H. by eexists.
Qed.

Lemma upload_file_success_iff_witness :
  exists c, sent (snd (upload_file {| form_code := Some "AB12C"; files_file := Some report_pdf |} w_paired))
  = sent w_paired ++ [(c, msg_file_ready "report.pdf" 4)].
Proof.
  exists 2.
  assert (Hr : rooms w_paired !! "AB12C" = Some (set_receiver 2 (new_room 1))) by by_eval.
  assert (Hopen : forall code r c,
            form_code {| form_code := Some "AB12C"; files_file := Some report_pdf |} = Some code ->
            rooms w_paired !! code = Some r -> receiver r = Some c -> c ∉ closed w_paired).
  { intros code r c [= <-] Hr' Hc. rewrite Hr in Hr'. injection Hr' as <-.
    injection Hc as <-. vm_compute. set_solver. }
  refine (proj2 (proj1 (proj2 (upload_file_success_iff
           {| form_code := Some "AB12C"; files_file := Some report_pdf |} w_paired Hopen))
         "AB12C" report_pdf (set_receiver 2 (new_room 1)) 2
         eq_refl _ Hr eq_refl _ eq_refl)).
  - discriminate.
  - discriminate.
Defined.

(** C5, on the code: only the receiver's join folds the case of the code.
    [w_paired] was reached by joining with [ab12c]; the same lower-case
    code is refused by both views, which look it up as it is written. *)
Theorem code_case_folded_only_on_join :
  let up c := {| form_code := Some c; files_file := Some report_pdf |} in
  let w_ready := snd (upload_file (up "AB12C") w_paired) in
  (exists r, rooms w_paired !! "AB12C" = Some r /\ receiver r = Some 2) /\
  fst (upload_file (up "ab12c") w_paired) = Ok (Text "Invalid request" 400) /\
  fst (upload_file (up "AB12C") w_paired)
  = Ok (Text "File uploaded and receiver notified." 200) /\
  fst (download_file (Some "ab12c") w_ready) = Ok (Text "Invalid download link." 400) /\
  fst (download_file (Some "AB12C") w_ready)
  = Ok (SendFile [x25; x50; x44; x46] (Some "report.pdf")).
Proof.
  intros up w_ready. split; [eexists; split; by_eval|].
  repeat split; by_eval.
Qed.

(** ** The handler: joining *)

Lemma receive_loop_cons draws fuel ws data rest h :
  receive_loop draws fuel ws (data :: rest) h
  = match on_data draws fuel ws data h with
    | (Ok _, h') => receive_loop draws fuel ws rest h'
    | (Raise e, h') => (Raise e, h')
    | (Diverge, h') => (Diverge, h')
    end.
Proof. reflexivity. Qed.

Lemma on_data_register_receiver draws fuel ws d h :
  dict_get "type" d = Some (JStr "register_receiver") ->
  on_data draws fuel ws (Parsed (JObj d)) h = register_receiver ws (JObj d) h.
Proof. intros H. unfold on_data, py_get. unfold_m. by rewrite H. Qed.

Lemma register_receiver_refused ws d c h :
  dict_get "code" d = Some (JStr c) ->
  ws ∉ closed (hworld h) ->
  (rooms (hworld h) !! upper c = None \/
   exists r c', rooms (hworld h) !! upper c = Some r /\ receiver r = Some c') ->
  register_receiver ws (JObj d) h
  = (Ok tt, {| my_code := my_code h; my_role := my_role h;
               hworld := with_sent (fun l => l ++ [(ws, msg_error "Invalid or expired code.")])
                           (hworld h) |}).
Proof.
  intros Hc Hopen Hroom. unfold register_receiver, py_get, code_upper. unfold_m.
  rewrite Hc. simpl.
  destruct Hroom as [->|(r & c' & -> & ->)]; by rewrite send_open.
Qed.

(** C7, on the code: a join that should bind does not always succeed.
    In [w_gone] the room [ABCDE] is registered with a free receiver slot,
    but its sender's connection is closed.  A join for [ABCDE] on the open
    channel 2 writes the slot and then raises on the [receiver_joined]
    push, which the join path does not swallow: the loop ends there without
    reading the next frame, the [finally] block removes the room, and the
    joiner has been sent neither the acknowledgement nor an error. *)
Theorem join_on_abandoned_room_is_lost :
  let frames := [reg_receiver "ABCDE"; reg_receiver "ZZZZZ"] in
  (exists r, rooms w_gone !! "ABCDE" = Some r /\
             receiver r = None /\ sender r = Some 1) /\
  (1 ∈ closed w_gone) /\
  (2 ∉ closed w_gone) /\
  fst (receive_loop counting 1 2 frames (fresh w_gone)) = Raise ConnectionClosed /\
  (2 ∉ closed (hworld (snd (receive_loop counting 1 2 frames (fresh w_gone))))) /\
  rooms (hworld (snd (receive_loop counting 1 2 frames (fresh w_gone)))) !! "ABCDE"
  = Some {| sender := Some 1; receiver := Some 2; filename := None; file_data := None |} /\
  fst (websocket counting 1 2 frames w_gone) = Ok tt /\
  rooms (snd (websocket counting 1 2 frames w_gone)) !! "ABCDE" = None /\
  sent (snd (websocket counting 1 2 frames w_gone)) = sent w_gone.
Proof.
  intros frames.
  split; [eexists; repeat split; by_eval|].
  split; [vm_compute; set_solver|]. split; [vm_compute; set_solver|].
  split; [by_eval|]. split; [vm_compute; set_solver|].
  split; [by_eval|]. split; [by_eval|]. split; by_eval.
Qed.

(** C8, as stated, fails on the name of the acknowledgement: after a join
    that binds, the frames sent are [code_generated] and [receiver_joined]
    to the sender and one frame of type [wating_for_file] to the receiver;
    no frame of type [waiting_for_file] is ever sent. *)
Lemma join_ack_is_not_waiting_for_file :
  sent w_paired
  = [(1, msg_code_generated "AB12C"); (1, msg_receiver_joined);
     (2, JObj [("type", JStr "wating_for_file")])] /\
  Forall (fun p => msg_type_of (snd p) <> Some (JStr "waiting_for_file")) (sent w_paired).
Proof.
  assert (E : sent w_paired
            = [(1, msg_code_generated "AB12C"); (1, msg_receiver_joined);
               (2, JObj [("type", JStr "wating_for_file")])]) by by_eval.
  split; [exact E|]. rewrite E.
  repeat constructor; discriminate.
Qed.

(** C8, amended: when a join binds a receiver to a room whose sender's
    connection is open, the sender's channel is pushed [receiver_joined]
    and then the receiver's channel is sent the acknowledgement, whose type
    is spelled [wating_for_file]; nothing else is sent. *)
Theorem join_notifies_sender_then_receiver draws fuel ws d c h r sender_ws :
  dict_get "type" d = Some (JStr "register_receiver") ->
  dict_get "code" d = Some (JStr c) ->
  rooms (hworld h) !! upper c = Some r ->
  receiver r = None ->
  sender r = Some sender_ws ->
  sender_ws ∉ closed (hworld h) ->
  ws ∉ closed (hworld h) ->
  let o := fst (on_data draws fuel ws (Parsed (JObj d)) h) in
  let h' := snd (on_data draws fuel ws (Parsed (JObj d)) h) in
  o = Ok tt /\
  (exists r', rooms (hworld h') !! upper c = Some r' /\ receiver r' = Some ws) /\
  sent (hworld h')
  = sent (hworld h) ++ [(sender_ws, msg_receiver_joined); (ws, msg_wating_for_file)] /\
  msg_type_of msg_receiver_joined = Some (JStr "receiver_joined") /\
  msg_type_of msg_wating_for_file = Some (JStr "wating_for_file").
Proof.
  intros Ht Hc Hr Hrc Hs Hso Hwo. rewrite on_data_register_receiver by done.
  unfold register_receiver, py_get, code_upper. unfold_m.
  rewrite Hc. simpl. rewrite Hr, Hrc, Hs. simpl.
  rewrite send_open by done. simpl. rewrite send_open by done. simpl.
  split; [done|]. split.
  - eexists. by rewrite lookup_insert_eq.
  - by rewrite <- app_assoc.
Qed.

Lemma join_notifies_sender_then_receiver_witness :
  sent (hworld (snd (on_data counting 1 2 (reg_receiver "ab12c") (fresh w_waiting))))
  = sent w_waiting ++ [(1, msg_receiver_joined); (2, msg_wating_for_file)].
Proof.
  refine (proj1 (proj2 (proj2 (join_notifies_sender_then_receiver counting 1 2
           [("type", JStr "register_receiver"); ("code", JStr "ab12c")] "ab12c"
           (fresh w_waiting) (new_room 1) 1 eq_refl eq_refl _ eq_refl eq_refl _ _)))).
  - by_eval.
  - vm_compute. set_solver.
  - vm_compute. set_solver.
Defined.

(** ** The handler: frames that are not requests *)

(** C9, as stated, fails for unparseable frames.  A sender that holds room
    [ABCDE] and then sends a text on which [json.loads] raises leaves the
    loop at that frame: the [register_sender] that follows is never read,
    the room is removed and the connection is closed. *)
Lemma malformed_frame_ends_the_handler :
  fst (receive_loop counting 3 1 [reg_sender; Malformed; reg_sender] (fresh w0))
  = Raise JSONDecodeError /\
  rooms (hworld (snd (receive_loop counting 3 1 [reg_sender; Malformed; reg_sender] (fresh w0))))
    !! "ABCDE" = Some (new_room 1) /\
  (1 ∉ closed (hworld (snd (receive_loop counting 3 1 [reg_sender; Malformed; reg_sender]
                             (fresh w0))))) /\
  fst (websocket counting 3 1 [reg_sender; Malformed; reg_sender] w0) = Ok tt /\
  rooms (snd (websocket counting 3 1 [reg_sender; Malformed; reg_sender] w0)) = ∅ /\
  (1 ∈ closed (snd (websocket counting 3 1 [reg_sender; Malformed; reg_sender] w0))) /\
  sent (snd (websocket counting 3 1 [reg_sender; Malformed; reg_sender] w0))
  = [(1, msg_code_generated "ABCDE")].
Proof.
  split; [by_eval|]. split; [by_eval|]. split; [vm_compute; set_solver|].
  split; [by_eval|]. split; [by_eval|]. split; [vm_compute; set_solver|].
  by_eval.
Qed.

Lemma is_type_true v t : is_type v t = true <-> v = Some (JStr t).
Proof.
  unfold is_type. destruct v as [[]|]; try (split; [discriminate|congruence]).
  rewrite bool_decide_eq_true. split; congruence.
Qed.

(** C9, amended: falsy data and JSON objects whose [type] is neither of the
    two requests are ignored (the state is unchanged and the loop reads the
    next frame).  A text on which [json.loads] raises, a JSON value that is
    not an object, or a join whose [code] is not a string raises out of the
    loop: the frames after it are not read and the [finally] block runs
    exactly as for a disconnect. *)
Theorem frames_ignored_or_fatal draws fuel ws h rest :
  on_data draws fuel ws Falsy h = (Ok tt, h) /\
  receive_loop draws fuel ws (Falsy :: rest) h = receive_loop draws fuel ws rest h /\
  (forall d,
     is_type (dict_get "type" d) "register_sender" = false ->
     is_type (dict_get "type" d) "register_receiver" = false ->
     on_data draws fuel ws (Parsed (JObj d)) h = (Ok tt, h) /\
     receive_loop draws fuel ws (Parsed (JObj d) :: rest) h
     = receive_loop draws fuel ws rest h) /\
  receive_loop draws fuel ws (Malformed :: rest) h = (Raise JSONDecodeError, h) /\
  try_except_finally (receive_loop draws fuel ws (Malformed :: rest)) cleanup h = cleanup h /\
  (forall j, (forall d, j <> JObj d) ->
     receive_loop draws fuel ws (Parsed j :: rest) h = (Raise AttributeError, h) /\
     try_except_finally (receive_loop draws fuel ws (Parsed j :: rest)) cleanup h = cleanup h) /\
  (forall d v,
     dict_get "type" d = Some (JStr "register_receiver") ->
     dict_get "code" d = Some v ->
     (forall c, v <> JStr c) ->
     receive_loop draws fuel ws (Parsed (JObj d) :: rest) h = (Raise AttributeError, h) /\
     try_except_finally (receive_loop draws fuel ws (Parsed (JObj d) :: rest)) cleanup h
     = cleanup h).
Proof.
  split; [reflexivity|]. split; [reflexivity|].
  split; [|split; [reflexivity|split; [|split]]].
  - intros d H1 H2.
    assert (E : on_data draws fuel ws (Parsed (JObj d)) h = (Ok tt, h)).
    { unfold on_data, py_get. unfold_m. by rewrite H1, H2. }
    split; [exact E|]. by rewrite receive_loop_cons, E.
  - reflexivity.
  - intros j Hj.
    assert (E : receive_loop draws fuel ws (Parsed j :: rest) h = (Raise AttributeError, h)).
    { destruct j; try reflexivity. by destruct (Hj d). }
    split; [exact E|]. unfold try_except_finally. by rewrite E.
  - intros d v Ht Hc Hv.
    assert (E : receive_loop draws fuel ws (Parsed (JObj d) :: rest) h
                = (Raise AttributeError, h)).
    { rewrite receive_loop_cons, on_data_register_receiver by done.
      unfold register_receiver, py_get, code_upper. unfold_m. rewrite Hc.
      destruct v; try done. by destruct (Hv s). }
    split; [exact E|]. unfold try_except_finally. by rewrite E.
Qed.

Lemma frames_ignored_or_fatal_witness :
  on_data counting 1 1 (Parsed (JObj [("type", JStr "ping")])) (fresh w_waiting)
  = (Ok tt, fresh w_waiting) /\
  receive_loop counting 1 1 [Parsed (JArr [])] (fresh w_waiting)
  = (Raise AttributeError, fresh w_waiting).
Proof.
  split.
  - refine (proj1 (proj1 (proj2 (proj2 (frames_ignored_or_fatal counting 1 1
             (fresh w_waiting) []))) [("type", JStr "ping")] eq_refl eq_refl)).
  - refine (proj1 (proj1 (proj2 (proj2 (proj2 (proj2 (proj2 (frames_ignored_or_fatal
             counting 1 1 (fresh w_waiting) [])))))) (JArr []) _)).
    intros d. discriminate.
Defined.

(** ** The [finally] block *)

Lemma cleanup_nothing h :
  (forall code, my_code h = Some code -> code <> "" -> rooms (hworld h) !! code = None) ->
  cleanup h = (Ok tt, h).
Proof.
  intros H. unfold cleanup. unfold_m. destruct h as [[code|] rl w]; simpl in *; [|done].
  case_bool_decide; [done|]. by rewrite H.
Qed.

(** The frames the [finally] block sends for room [r]. *)
Lemma cleanup_room h code r :
  my_code h = Some code -> code <> "" -> rooms (hworld h) !! code = Some r ->
  exists notice,
    cleanup h
    = (Ok tt, {| my_code := my_code h; my_role := my_role h;
                 hworld := with_rooms (delete code)
                             (with_sent (fun l => l ++ notice) (hworld h)) |}) /\
    (forall c, my_role h = Some RSender -> receiver r = Some c -> c ∉ closed (hworld h) ->
               notice = [(c, msg_error "Sender disconnected.")]) /\
    (forall c, my_role h = Some RReceiver -> sender r = Some c -> c ∉ closed (hworld h) ->
               notice = [(c, msg_error "Receiver disconnected.")]) /\
    (forall c, my_role h = Some RSender -> receiver r = Some c -> c ∈ closed (hworld h) ->
               notice = []) /\
    (forall c, my_role h = Some RReceiver -> sender r = Some c -> c ∈ closed (hworld h) ->
               notice = []) /\
    (my_role h = Some RSender -> receiver r = None -> notice = []) /\
    (my_role h = Some RReceiver -> sender r = None -> notice = []) /\
    (my_role h = None -> notice = []).
Proof.
  intros Hc Hne Hr. destruct h as [mc rl w]. simpl in *. subst mc.
  unfold cleanup. unfold_m. rewrite bool_decide_eq_false_2 by done. rewrite Hr.
  assert (Hnil : w = with_sent (fun l => l ++ []) w).
  { destruct w. unfold with_sent. simpl. by rewrite app_nil_r. }
  destruct rl as [[]|]; simpl.
  - destruct (receiver r) as [c|]; simpl.
    + unfold send. case_decide; simpl.
      * exists []. rewrite <- Hnil. repeat split; intros; simplify_eq; done.
      * eexists. split; [reflexivity|]. repeat split; intros; simplify_eq; done.
    + exists []. rewrite <- Hnil. repeat split; intros; simplify_eq; done.
  - destruct (receiver r) as [c0|]; destruct (sender r) as [c|]; simpl.
    all: try (exists []; rewrite <- Hnil; repeat split; intros; simplify_eq; done).
    all: unfold send; case_decide; simpl.
    all: try (exists []; rewrite <- Hnil; repeat split; intros; simplify_eq; done).
    all: eexists; (split; [reflexivity|]); repeat split; intros; simplify_eq; done.
  - destruct (receiver r), (sender r); simpl.
    all: exists []; rewrite <- Hnil; repeat split; intros; simplify_eq; done.
Qed.

Lemma download_unknown code w :
  rooms w !! code = None ->
  download_file (Some code) w = (Ok (Text "Invalid download link." 400), w).
Proof.
  intros H. unfold download_file, download_view, truthy. unfold_m.
  case_bool_decide; [done|]. by rewrite H.
Qed.

Lemma websocket_unfold draws fuel ws frames w h :
  try_except_finally (receive_loop draws fuel ws frames) cleanup (fresh w) = (Ok tt, h) ->
  websocket draws fuel ws frames w = (Ok tt, with_closed (union {[ws]}) (hworld h)).
Proof. intros E. unfold websocket, bind. by rewrite E. Qed.

(** C3, amended: when a channel closes or an exception leaves its loop, the
    handler removes the room named by the channel's current code [my_code]
    (set by its latest registration that went through) if that code is
    still registered, and no other room.  The other peer of that room gets
    a disconnect error frame if it is bound and its connection is open (a
    failed delivery is swallowed), and a download with that code on the
    resulting registry is refused with 400 [Invalid download link.]. *)
Theorem disconnect_removes_current_room draws fuel ws frames h0 o h1 code r :
  receive_loop draws fuel ws frames h0 = (o, h1) ->
  o <> Diverge ->
  my_code h1 = Some code ->
  code <> "" ->
  rooms (hworld h1) !! code = Some r ->
  let res := try_except_finally (receive_loop draws fuel ws frames) cleanup h0 in
  let w1 := hworld h1 in
  let w2 := hworld (snd res) in
  fst res = Ok tt /\
  rooms w2 = delete code (rooms w1) /\
  (forall c, my_role h1 = Some RSender -> receiver r = Some c -> c ∉ closed w1 ->
             sent w2 = sent w1 ++ [(c, msg_error "Sender disconnected.")]) /\
  (forall c, my_role h1 = Some RReceiver -> sender r = Some c -> c ∉ closed w1 ->
             sent w2 = sent w1 ++ [(c, msg_error "Receiver disconnected.")]) /\
  (forall c, my_role h1 = Some RSender /\ receiver r = Some c \/
             my_role h1 = Some RReceiver /\ sender r = Some c ->
             c ∈ closed w1 -> sent w2 = sent w1) /\
  download_file (Some code) w2 = (Ok (Text "Invalid download link." 400), w2) /\
  (forall w, h0 = fresh w ->
     fst (websocket draws fuel ws frames w) = Ok tt /\
     rooms (snd (websocket draws fuel ws frames w)) = delete code (rooms w1) /\
     sent (snd (websocket draws fuel ws frames w)) = sent w2).
Proof.
  intros Hloop Ho Hc Hne Hr res w1 w2.
  destruct (cleanup_room h1 code r Hc Hne Hr)
    as (notice & E & N1 & N2 & N3 & N4 & _).
  assert (Eres : res = cleanup h1).
  { unfold res, try_except_finally. rewrite Hloop. by destruct o. }
  unfold w2. rewrite Eres, E. simpl. split; [done|]. split; [done|].
  split; [|split; [|split; [|split]]].
  - intros c H1 H2 H3. by rewrite (N1 c).
  - intros c H1 H2 H3. by rewrite (N2 c).
  - intros c [[H1 H2]|[H1 H2]] H3.
    + rewrite (N3 c) by done. by rewrite app_nil_r.
    + rewrite (N4 c) by done. by rewrite app_nil_r.
  - apply download_unknown. simpl. apply lookup_delete_eq.
  - intros w ->. unfold res in Eres. rewrite E in Eres.
    by rewrite (websocket_unfold _ _ _ _ _ _ Eres).
Qed.

Lemma disconnect_removes_current_room_witness :
  exists h1,
    receive_loop counting 1 2 [reg_receiver "ab12c"] (fresh w_waiting)
    = (Raise ConnectionClosed, h1) /\
    rooms (hworld (snd (try_except_finally (receive_loop counting 1 2 [reg_receiver "ab12c"])
                          cleanup (fresh w_waiting))))
    = delete "AB12C" (rooms (hworld h1)) /\
    sent (hworld (snd (try_except_finally (receive_loop counting 1 2 [reg_receiver "ab12c"])
                          cleanup (fresh w_waiting))))
    = sent (hworld h1) ++ [(1, msg_error "Receiver disconnected.")].
Proof.
  eexists. split; [by_eval|].
  match goal with |- rooms _ = delete _ (rooms (hworld ?h)) /\ _ =>
    assert (L : receive_loop counting 1 2 [reg_receiver "ab12c"] (fresh w_waiting)
                = (Raise ConnectionClosed, h)) by by_eval;
    assert (Hc : my_code h = Some "AB12C") by by_eval;
    assert (Hr : rooms (hworld h) !! "AB12C" = Some (set_receiver 2 (new_room 1))) by by_eval;
    assert (Ho : 1 ∉ closed (hworld h)) by (vm_compute; set_solver);
    assert (Hn : "AB12C" <> "") by discriminate;
    assert (Hd : Raise ConnectionClosed <> @Diverge unit) by discriminate;
    destruct (disconnect_removes_current_room counting 1 2 [reg_receiver "ab12c"]
                (fresh w_waiting) (Raise ConnectionClosed) h "AB12C"
                (set_receiver 2 (new_room 1)) L Hd Hc Hn Hr) as (_ & H1 & _ & H2 & _)
  end.
  split; [exact H1|]. exact (H2 1 eq_refl eq_refl Ho).
Defined.

(** C3, as stated, fails for a channel that registered more than once.
    Channel 1 creates [ABCDE], a receiver joins it and the file is
    uploaded; channel 1 then registers again (room [FGHIJ]) and closes.
    Only [FGHIJ] is removed: the room [ABCDE], whose sender is the closed
    channel, stays in the registry, its receiver is sent no disconnect
    error, and a download with [ABCDE] still serves the file. *)
Lemma disconnect_keeps_earlier_room :
  exists s, run counting 1 sys0 twice_registered = Some s /\
    (1 ∈ closed (sworld s)) /\
    map_to_list (rooms (sworld s))
    = [("ABCDE", {| sender := Some 1; receiver := Some 2;
                    filename := Some "report.pdf";
                    file_data := Some [x25; x50; x44; x46] |})] /\
    sent (sworld s)
    = [(1, msg_code_generated "ABCDE"); (1, msg_receiver_joined);
       (2, msg_wating_for_file); (2, msg_file_ready "report.pdf" 4);
       (1, msg_code_generated "FGHIJ")] /\
    download_file (Some "ABCDE") (sworld s)
    = (Ok (SendFile [x25; x50; x44; x46] (Some "report.pdf")), sworld s).
Proof.
  eexists. split; [by_eval|]. split; [vm_compute; set_solver|].
  split; [by_eval|]. split; by_eval.
Qed.

(** ** Registering more than once *)

Lemma on_data_register_sender draws fuel ws data h :
  is_reg_sender data = true ->
  on_data draws fuel ws data h = register_sender draws fuel ws h.
Proof.
  destruct data as [| |[]]; try discriminate. simpl. intros H.
  unfold_m. by rewrite H.
Qed.

Lemma register_sender_spec draws fuel ws h o h' :
  register_sender draws fuel ws h = (o, h') ->
  o = Diverge \/
  exists code,
    rooms (hworld h) !! code = None /\
    my_code h' = Some code /\ my_role h' = Some RSender /\
    rooms (hworld h') = <[code := new_room ws]> (rooms (hworld h)) /\
    closed (hworld h') = closed (hworld h) /\
    (o = Ok tt /\ (ws ∉ closed (hworld h)) /\
     sent (hworld h') = sent (hworld h) ++ [(ws, msg_code_generated code)] \/
     o = Raise ConnectionClosed /\ (ws ∈ closed (hworld h)) /\
     sent (hworld h') = sent (hworld h)).
Proof.
  unfold register_sender. unfold_m.
  destruct (generate_code draws fuel 5 (hworld h)) as [[code| |] w'] eqn:G.
  - apply generate_code_ok in G as [Hfree [p ->]]. simpl.
    unfold send. simpl. case_decide; simpl; intros [= <- <-]; right; exists code; simpl.
    + repeat split; try done. right. done.
    + repeat split; try done. left. done.
  - by apply generate_code_no_raise in G.
  - intros [= <- <-]. by left.
Qed.


Lemma cleanup_rooms h :
  fst (cleanup h) = Ok tt /\
  (rooms (hworld (snd (cleanup h))) = rooms (hworld h) \/
   exists code, my_code h = Some code /\
                rooms (hworld (snd (cleanup h))) = delete code (rooms (hworld h))).
Proof.
  destruct (my_code h) as [code|] eqn:Hc.
  2:{ rewrite cleanup_nothing; [by split; [|left]|]. congruence. }
  destruct (decide (code = "")) as [->|Hne].
  { rewrite cleanup_nothing; [by split; [|left]|]. congruence. }
  destruct (rooms (hworld h) !! code) as [r|] eqn:Hr.
  - destruct (cleanup_room h code r Hc Hne Hr) as (notice & -> & _). simpl.
    split; [done|]. right. by exists code.
  - rewrite cleanup_nothing; [by split; [|left]|]. congruence.
Qed.

Lemma cleanup_ok h : exists h', cleanup h = (Ok tt, h').
Proof.
  destruct (cleanup h) as [o h'] eqn:E. exists h'.
  pose proof (cleanup_rooms h) as [Ho _]. rewrite E in Ho. simpl in Ho. by subst o.
Qed.



(** ** Upload, then download *)

Lemma has_payload_rooms code name data w w' :
  rooms w' = rooms w -> has_payload code name data w -> has_payload code name data w'.
Proof. intros E (r & H). exists r. by rewrite E. Qed.

Lemma has_payload_insert code name data w c r' r :
  rooms w !! c = Some r ->
  filename r' = filename r -> file_data r' = file_data r ->
  has_payload code name data w ->
  has_payload code name data (with_rooms (insert c r') w).
Proof.
  intros Hr Hf Hd (r0 & H0 & H1 & H2). unfold has_payload. simpl.
  destruct (decide (c = code)) as [->|Hne].
  - exists r'. rewrite lookup_insert_eq. split; [done|]. simplify_eq. by rewrite Hf, Hd.
  - exists r0. by rewrite lookup_insert_ne.
Qed.

Lemma has_payload_insert_fresh code name data w c r' :
  rooms w !! c = None ->
  has_payload code name data w ->
  has_payload code name data (with_rooms (insert c r') w).
Proof.
  intros Hr (r0 & H0 & H1 & H2). exists r0. simpl.
  rewrite lookup_insert_ne; [done|]. congruence.
Qed.

Lemma download_has_payload code name data w :
  code <> "" ->
  has_newline name = false ->
  has_payload code name data w ->
  download_file (Some code) w = (Ok (SendFile data (Some name)), w).
Proof.
  intros Hne Hnl (r & Hr & Hn & Hd).
  unfold download_file, download_view, send_file, truthy. unfold_m.
  rewrite bool_decide_eq_false_2 by done. by rewrite Hr, Hd, Hn, Hnl.
Qed.

Lemma download_view_pure req w : snd (download_view req w) = w.
Proof.
  unfold download_view, send_file. unfold_m.
  destruct (truthy (args_code req)); [|done].
  destruct (rooms w !! s) as [r|]; [|done].
  destruct (file_data r); [|done].
  destruct (filename r) as [name|]; [|done].
  destruct (has_newline name); [done|]. by destruct (headers_range req).
Qed.

Lemma download_file_pure arg_code w : snd (download_file arg_code w) = w.
Proof. apply download_view_pure. Qed.

Lemma upload_success_payload req w code file body :
  form_code req = Some code ->
  files_file req = Some file ->
  fst (upload_file req w) = Ok (Text body 200) ->
  code <> "" /\
  has_payload code (fs_filename file) (fs_read file) (snd (upload_file req w)).
Proof.
  intros Hc Hf. unfold upload_file. unfold_m. rewrite Hf, Hc. unfold truthy.
  case_bool_decide as Hne; [discriminate|].
  destruct (rooms w !! code) as [r|] eqn:Hr; [|discriminate].
  case_bool_decide; [discriminate|]. simpl.
  destruct (receiver r); [|discriminate].
  unfold send. simpl. case_decide; [discriminate|]. simpl. intros _.
  split; [done|]. eexists. simpl. by rewrite lookup_insert_eq.
Qed.

Lemma upload_other_keeps req w code name data :
  truthy (form_code req) <> Some code ->
  has_payload code name data w ->
  has_payload code name data (snd (upload_file req w)).
Proof.
  intros Hc Hp. unfold upload_file. unfold_m.
  destruct (files_file req) as [file|]; [|done].
  destruct (truthy (form_code req)) as [c|]; [|done].
  destruct (rooms w !! c) as [r|] eqn:Hr; [|done].
  case_bool_decide; [done|]. simpl.
  assert (Hp' : has_payload code name data
            (with_rooms (insert c (set_payload (fs_filename file) (fs_read file) r)) w)).
  { destruct Hp as (r0 & H0 & H1 & H2). exists r0. simpl.
    rewrite lookup_insert_ne; [done|]. congruence. }
  destruct (receiver r); [|done].
  unfold send. simpl. by case_decide.
Qed.

Lemma register_receiver_keeps ws message h code name data :
  has_payload code name data (hworld h) ->
  has_payload code name data (hworld (snd (register_receiver ws message h))).
Proof.
  intros Hp. unfold register_receiver, py_get, code_upper. unfold_m.
  destruct message as [| | | | |d]; try done. simpl.
  destruct (dict_get "code" d) as [[| | |c| |]|]; try done; simpl.
  - destruct (rooms (hworld h) !! upper c) as [r|] eqn:Hr; simpl.
    + destruct (receiver r) as [c0|]; simpl.
      * unfold send. by case_decide.
      * assert (Hp' : has_payload code name data
                  (with_rooms (insert (upper c) (set_receiver ws r)) (hworld h))).
        { by eapply has_payload_insert. }
        destruct (sender r); simpl; unfold send; simpl;
          repeat (case_decide; simpl); done.
    + unfold send. by case_decide.
  - destruct (rooms (hworld h) !! "") as [r|] eqn:Hr; simpl.
    + destruct (receiver r) as [c0|]; simpl.
      * unfold send. by case_decide.
      * assert (Hp' : has_payload code name data
                  (with_rooms (insert "" (set_receiver ws r)) (hworld h))).
        { by eapply has_payload_insert. }
        destruct (sender r); simpl; unfold send; simpl;
          repeat (case_decide; simpl); done.
    + unfold send. by case_decide.
Qed.

Lemma register_sender_keeps draws fuel ws h code name data :
  fst (register_sender draws fuel ws h) <> Diverge ->
  has_payload code name data (hworld h) ->
  has_payload code name data (hworld (snd (register_sender draws fuel ws h))).
Proof.
  intros Ho Hp. destruct (register_sender draws fuel ws h) as [o h'] eqn:E.
  apply register_sender_spec in E as [->|(c & Hfree & _ & _ & Hrooms & _)]; [done|].
  simpl. destruct Hp as (r & Hr & Hn & Hd). exists r. rewrite Hrooms.
  rewrite lookup_insert_ne; [done|]. congruence.
Qed.

Lemma on_data_keeps draws fuel ws data h code name data' :
  fst (on_data draws fuel ws data h) <> Diverge ->
  has_payload code name data' (hworld h) ->
  has_payload code name data' (hworld (snd (on_data draws fuel ws data h))).
Proof.
  intros Ho Hp. destruct data as [| |message]; [done|done|].
  unfold on_data in *. unfold py_get in *. unfold_m.
  destruct message as [| | | | |d]; try done.
  simpl in *. destruct (is_type (dict_get "type" d) "register_sender").
  - by apply register_sender_keeps.
  - destruct (is_type (dict_get "type" d) "register_receiver"); [|done].
    by apply register_receiver_keeps.
Qed.

Lemma cleanup_keeps h code name data :
  is_Some (rooms (hworld (snd (cleanup h))) !! code) ->
  has_payload code name data (hworld h) ->
  has_payload code name data (hworld (snd (cleanup h))).
Proof.
  intros Hs Hp. destruct (cleanup_rooms h) as [_ [E|(c & _ & E)]].
  - by eapply has_payload_rooms.
  - rewrite E in Hs. destruct Hp as (r & Hr & Hn & Hd). exists r. rewrite E.
    destruct (decide (c = code)) as [->|Hne].
    + rewrite lookup_delete_eq in Hs. by destruct Hs.
    + by rewrite lookup_delete_ne.
Qed.

Lemma leave_keeps ws s h code name data :
  is_Some (rooms (sworld (leave ws s h)) !! code) ->
  has_payload code name data (hworld h) ->
  has_payload code name data (sworld (leave ws s h)).
Proof.
  unfold leave. unfold bind.
  destruct (cleanup h) as [o h'] eqn:E.
  pose proof (cleanup_rooms h) as [Ho _]. rewrite E in Ho. simpl in Ho. subst o.
  unfold_m. intros Hs Hp.
  pose proof (cleanup_keeps h code name data) as K. rewrite E in K. simpl in K.
  by apply K.
Qed.

Lemma handler_of_world s ws : hworld (handler_of s ws) = sworld s.
Proof. unfold handler_of. by destruct (conns s !! ws) as [[]|]. Qed.

Lemma step_keeps draws fuel s e s' code name data :
  names_room code e = false ->
  step draws fuel s e = Some s' ->
  is_Some (rooms (sworld s') !! code) ->
  has_payload code name data (sworld s) ->
  has_payload code name data (sworld s').
Proof.
  intros Hn Hstep Hs Hp. destruct e as [ws d|ws|req|c]; simpl in *.
  - case_decide; [by simplify_eq|].
    pose proof (on_data_keeps draws fuel ws d (handler_of s ws) code name data) as K.
    rewrite handler_of_world in K.
    destruct (on_data draws fuel ws d (handler_of s ws)) as [[[]|e|] h]; simpl in *.
    + injection Hstep as <-. simpl. by apply K.
    + injection Hstep as <-. apply leave_keeps; [done|]. by apply K.
    + done.
  - case_decide; [by simplify_eq|]. injection Hstep as <-.
    apply leave_keeps; [done|]. unfold_m. by rewrite handler_of_world.
  - injection Hstep as <-. simpl. apply upload_other_keeps; [|done].
    by apply bool_decide_eq_false in Hn.
  - injection Hstep as <-. simpl. by rewrite download_file_pure.
Qed.

Lemma undisturbed_keeps draws fuel code name data es :
  forall s,
    has_payload code name data (sworld s) ->
    undisturbed draws fuel code s es = true ->
    exists s', run draws fuel s es = Some s' /\ has_payload code name data (sworld s').
Proof.
  induction es as [|e es IH]; intros s Hp Hu; simpl in *.
  - by exists s.
  - apply andb_true_iff in Hu as [Hn Hu]. apply negb_true_iff in Hn.
    destruct (step draws fuel s e) as [s1|] eqn:Hstep; [|done].
    apply andb_true_iff in Hu as [Hs Hu]. apply bool_decide_eq_true in Hs.
    apply (IH s1); [|done]. by eapply step_keeps.
Qed.

(** C4, as stated, fails for two kinds of download.  An upload whose
    filename holds a line feed is accepted and the receiver notified, but
    every download of it ends in the [ValueError] of [send_file]; and a
    download request that carries a [Range] header is answered from the
    range, not with the whole file. *)
Lemma download_after_accepted_upload_fails :
  fst (upload_file {| form_code := Some "AB12C"; files_file := Some newline_txt |} w_paired)
  = Ok (Text "File uploaded and receiver notified." 200) /\
  fst (download_file (Some "AB12C")
         (snd (upload_file {| form_code := Some "AB12C"; files_file := Some newline_txt |}
                 w_paired)))
  = Raise ValueError /\
  fst (upload_file {| form_code := Some "AB12C"; files_file := Some report_pdf |} w_paired)
  = Ok (Text "File uploaded and receiver notified." 200) /\
  fst (download_view {| args_code := Some "AB12C"; headers_range := Some "bytes=0-1" |}
         (snd (upload_file {| form_code := Some "AB12C"; files_file := Some report_pdf |}
                 w_paired)))
  = Ok (SendRange "bytes=0-1" [x25; x50; x44; x46] "report.pdf").
Proof. repeat split; by_eval. Qed.

(** C4, amended: once an upload of [file], whose filename holds no carriage
    return and no line feed, has succeeded for the room of [code], then
    after any further activity of the server (frames on any channel,
    disconnects, uploads to other rooms, downloads) during which nobody
    uploads to [code] and its room is not torn down, a download with [code]
    and no [Range] header returns the bytes and the filename that were
    uploaded; no download request, whatever its headers, changes the state,
    so the next download returns them again. *)
Theorem download_returns_uploaded_payload draws fuel s s1 req code file body es :
  form_code req = Some code ->
  files_file req = Some file ->
  has_newline (fs_filename file) = false ->
  fst (upload_file req (sworld s)) = Ok (Text body 200) ->
  step draws fuel s (EvUpload req) = Some s1 ->
  undisturbed draws fuel code s1 es = true ->
  exists s2,
    run draws fuel s1 es = Some s2 /\
    download_view {| args_code := Some code; headers_range := None |} (sworld s2)
    = (Ok (SendFile (fs_read file) (Some (fs_filename file))), sworld s2) /\
    (forall rq, snd (download_view rq (sworld s2)) = sworld s2) /\
    run draws fuel s1 (es ++ [EvDownload (Some code)]) = Some s2.
Proof.
  intros Hc Hf Hnl Hok Hstep Hu. simpl in Hstep. injection Hstep as <-.
  destruct (upload_success_payload req (sworld s) code file body Hc Hf Hok) as [Hne Hp].
  destruct (undisturbed_keeps draws fuel code _ _ es
              {| sworld := snd (upload_file req (sworld s)); conns := conns s |} Hp Hu)
    as (s2 & Hrun & Hp2).
  exists s2. split; [done|].
  assert (Hd := download_has_payload code _ _ (sworld s2) Hne Hnl Hp2).
  split; [exact Hd|]. split; [intros rq; apply download_view_pure|].
  clear Hu. revert Hrun. generalize ({| sworld := snd (upload_file req (sworld s));
                                        conns := conns s |}).
  induction es as [|e es IH]; intros s0 Hrun; simpl in *.
  - injection Hrun as ->. rewrite download_file_pure. by destruct s2.
  - destruct (step draws fuel s0 e); [|done]. by apply IH.
Qed.

Lemma download_returns_uploaded_payload_witness :
  exists s s1 s2,
    run counting 1 sys0 [EvRecv 1 reg_sender; EvRecv 2 (reg_receiver "abcde")] = Some s /\
    step counting 1 s
      (EvUpload {| form_code := Some "ABCDE"; files_file := Some report_pdf |}) = Some s1 /\
    run counting 1 s1 after_upload = Some s2 /\
    download_view {| args_code := Some "ABCDE"; headers_range := None |} (sworld s2)
    = (Ok (SendFile [x25; x50; x44; x46] (Some "report.pdf")), sworld s2).
Proof.
  eexists. eexists.
  match goal with |- exists s2, _ = Some ?s /\ _ = Some ?s1 /\ _ =>
    assert (R : run counting 1 sys0 [EvRecv 1 reg_sender; EvRecv 2 (reg_receiver "abcde")]
                = Some s) by by_eval;
    assert (U : step counting 1 s
                  (EvUpload {| form_code := Some "ABCDE"; files_file := Some report_pdf |})
                = Some s1) by by_eval;
    assert (K : fst (upload_file {| form_code := Some "ABCDE"; files_file := Some report_pdf |}
                       (sworld s))
                = Ok (Text "File uploaded and receiver notified." 200)) by by_eval;
    assert (N : has_newline (fs_filename report_pdf) = false) by by_eval;
    assert (Q : undisturbed counting 1 "ABCDE" s1 after_upload = true) by by_eval;
    destruct (download_returns_uploaded_payload counting 1 s s1
                {| form_code := Some "ABCDE"; files_file := Some report_pdf |}
                "ABCDE" report_pdf _ after_upload eq_refl eq_refl N K U Q)
      as (s2 & Hrun & Hd & _)
  end.
  exists s2. split; [exact R|]. split; [exact U|]. split; [exact Hrun|]. exact Hd.
Defined.

(** ** One connection in the interleaved model

    The events of a single connection, run through [step], do what
    [websocket] does on the frames of that connection. *)

Lemma send_closed_set c m w : closed (snd (send c m w)) = closed w.
Proof. unfold send. by case_decide. Qed.

Lemma generate_code_world draws fuel length w :
  exists p, snd (generate_code draws fuel length w) = with_rpos p w.
Proof.
  revert w. induction fuel as [|fuel IH]; intros w; simpl.
  - exists (rpos w). by destruct w.
  - unfold_m.
    destruct (decide (is_Some (rooms w !! choices draws (rpos w) length))).
    + destruct (IH (with_rpos (rpos w + length) w)) as [p ->]. by exists p.
    + by eexists.
Qed.

Lemma on_data_closed draws fuel ws data h :
  closed (hworld (snd (on_data draws fuel ws data h))) = closed (hworld h).
Proof.
  destruct data as [| |message]; [done|done|].
  unfold on_data, py_get. unfold_m.
  destruct message as [| | | | |d]; try done. simpl.
  destruct (is_type (dict_get "type" d) "register_sender").
  - unfold register_sender. unfold_m.
    destruct (generate_code_world draws fuel 5 (hworld h)) as [p Hp].
    destruct (generate_code draws fuel 5 (hworld h)) as [[code| |] w']; simpl in *;
      subst w'; try done.
    unfold send. simpl. by case_decide.
  - destruct (is_type (dict_get "type" d) "register_receiver"); [|done].
    unfold register_receiver, py_get, code_upper. unfold_m.
    destruct (dict_get "code" d) as [[| | |c| |]|]; try done; simpl.
    + destruct (rooms (hworld h) !! upper c) as [r|]; simpl.
      * destruct (receiver r); simpl; [unfold send; by case_decide|].
        destruct (sender r); simpl; unfold send; simpl;
          repeat (case_decide; simpl); done.
      * unfold send; by case_decide.
    + destruct (rooms (hworld h) !! "") as [r|]; simpl.
      * destruct (receiver r); simpl; [unfold send; by case_decide|].
        destruct (sender r); simpl; unfold send; simpl;
          repeat (case_decide; simpl); done.
      * unfold send; by case_decide.
Qed.

Lemma leave_closed ws s h : ws ∈ closed (sworld (leave ws s h)).
Proof.
  unfold leave, bind. destruct (cleanup_ok h) as [h' ->]. unfold_m. set_solver.
Qed.

Lemma run_after_close draws fuel ws s frames :
  ws ∈ closed (sworld s) ->
  run draws fuel s (conn_events ws frames) = Some s.
Proof.
  intros Hc. unfold conn_events.
  induction frames as [|d rest IH]; simpl; by case_decide.
Qed.

Lemma handler_of_insert s ws h :
  handler_of {| sworld := hworld h;
                conns := <[ws := (my_code h, my_role h)]> (conns s) |} ws = h.
Proof. unfold handler_of. simpl. rewrite lookup_insert_eq. by destruct h. Qed.

Lemma run_connection draws fuel ws frames :
  forall s,
    ws ∉ closed (sworld s) ->
    let res := bind (try_except_finally (receive_loop draws fuel ws frames) cleanup)
                 (fun _ => in_world (close ws)) (handler_of s ws) in
    fst res <> Diverge ->
    run draws fuel s (conn_events ws frames)
    = Some {| sworld := hworld (snd res); conns := delete ws (conns s) |}.
Proof.
  induction frames as [|d rest IH]; intros s Hopen res Hres.
  - simpl. case_decide; [done|]. reflexivity.
  - change (conn_events ws (d :: rest)) with (EvRecv ws d :: conn_events ws rest).
    simpl. case_decide; [done|].
    unfold res, bind, try_except_finally in *. rewrite receive_loop_cons in *.
    pose proof (on_data_closed draws fuel ws d (handler_of s ws)) as Hcl.
    rewrite handler_of_world in Hcl.
    destruct (on_data draws fuel ws d (handler_of s ws)) as [[[]|e|] h1]; simpl in *.
    + rewrite IH; simpl.
      * rewrite handler_of_insert. unfold bind, try_except_finally.
        by rewrite delete_insert_eq.
      * by rewrite Hcl.
      * rewrite handler_of_insert. exact Hres.
    + rewrite run_after_close by apply leave_closed. reflexivity.
    + done.
Qed.

(** [websocket], started while [ws] has no handler yet, is the run of the
    connection's events. *)
Lemma websocket_run draws fuel ws frames s :
  conns s !! ws = None ->
  ws ∉ closed (sworld s) ->
  fst (websocket draws fuel ws frames (sworld s)) <> Diverge ->
  run draws fuel s (conn_events ws frames)
  = Some {| sworld := snd (websocket draws fuel ws frames (sworld s)); conns := conns s |}.
Proof.
  intros Hnew Hopen Hres.
  assert (Hh : handler_of s ws = fresh (sworld s)).
  { unfold handler_of. by rewrite Hnew. }
  unfold websocket in *.
  pose proof (run_connection draws fuel ws frames s Hopen) as R. simpl in R.
  rewrite Hh in R.
  destruct (bind (try_except_finally (receive_loop draws fuel ws frames) cleanup)
              (fun _ => in_world (close ws)) (fresh (sworld s))) as [o h]; simpl in *.
  rewrite R by done. by rewrite delete_id.
Qed.

(** * Further properties of the code *)

(** ** [generate_code]: the shape of a code *)

Lemma choices_length draws pos k : String.length (choices draws pos k) = k.
Proof. revert pos. induction k as [|k IH]; intros pos; simpl; [done|]. by rewrite IH. Qed.

Lemma choice_in_population r : choice r ∈ population.
Proof.
  unfold choice. apply list_elem_of_In, nth_In.
  change (length population) with 36. apply Nat.mod_upper_bound. lia.
Qed.

Lemma choices_population draws pos k :
  Forall (fun c => c ∈ population) (list_ascii_of_string (choices draws pos k)).
Proof.
  revert pos. induction k as [|k IH]; intros pos; simpl; constructor.
  - apply choice_in_population.
  - apply IH.
Qed.

Lemma generate_code_is_choices draws fuel length w code w' :
  generate_code draws fuel length w = (Ok code, w') ->
  exists pos, code = choices draws pos length.
Proof.
  revert w. induction fuel as [|fuel IH]; intros w; [done|].
  simpl. unfold_m.
  destruct (decide (is_Some (rooms w !! choices draws (rpos w) length))).
  - apply IH.
  - intros [= <- <-]. by eexists.
Qed.

Lemma generate_code_shape draws fuel w code w' :
  generate_code draws fuel 5 w = (Ok code, w') -> code_shape code.
Proof.
  intros H. destruct (generate_code_is_choices _ _ _ _ _ _ H) as [pos ->].
  split; [apply choices_length|apply choices_population].
Qed.

(** X1: whenever [generate_code] returns, the code has exactly [length]
    characters, all of them upper-case letters or digits, it is not a key
    of [rooms], and the call has changed neither the registry nor the
    frames sent nor the set of closed connections. *)
Theorem generate_code_result draws fuel length w code w' :
  generate_code draws fuel length w = (Ok code, w') ->
  String.length code = length /\
  Forall (fun c => c ∈ population) (list_ascii_of_string code) /\
  rooms w !! code = None /\
  rooms w' = rooms w /\ sent w' = sent w /\ closed w' = closed w.
Proof.
  intros H. destruct (generate_code_is_choices _ _ _ _ _ _ H) as [pos ->].
  apply generate_code_ok in H as [Hfree [p ->]].
  split; [apply choices_length|]. split; [apply choices_population|]. done.
Qed.

Lemma generate_code_result_witness :
  exists code w',
    generate_code counting 1 5 w_taken = (Ok code, w') /\
    String.length code = 5 /\ rooms w_taken !! code = None.
Proof.
  eexists. eexists.
  match goal with |- ?g = (Ok ?c, ?w) /\ _ =>
    assert (G : g = (Ok c, w)) by by_eval;
    destruct (generate_code_result counting 1 5 w_taken c w G) as (H1 & _ & H2 & _)
  end.
  split; [exact G|]. split; [exact H1|exact H2].
Defined.

(** ** [register_sender]: what a registration does *)

Lemma register_sender_effect draws fuel ws h o h' :
  register_sender draws fuel ws h = (o, h') ->
  o <> Diverge ->
  exists code,
    code_shape code /\
    rooms (hworld h) !! code = None /\
    my_code h' = Some code /\ my_role h' = Some RSender /\
    rooms (hworld h') = <[code := new_room ws]> (rooms (hworld h)) /\
    closed (hworld h') = closed (hworld h) /\
    (ws ∉ closed (hworld h) ->
     o = Ok tt /\
     sent (hworld h') = sent (hworld h) ++ [(ws, msg_code_generated code)]) /\
    (ws ∈ closed (hworld h) ->
     o = Raise ConnectionClosed /\ sent (hworld h') = sent (hworld h)).
Proof.
  unfold register_sender. unfold_m.
  destruct (generate_code draws fuel 5 (hworld h)) as [[code| |] w'] eqn:G.
  - destruct (generate_code_shape _ _ _ _ _ G) as [Hl Hp].
    apply generate_code_ok in G as [Hfree [p ->]]. simpl.
    unfold send. simpl. case_decide; simpl; intros [= <- <-] _; exists code; simpl.
    + repeat split; try done.
    + repeat split; try done.
  - by apply generate_code_no_raise in G.
  - by intros [= <- <-].
Qed.

(** X2: a [register_sender] frame on an open channel, when [generate_code]
    returns: a room is inserted under a code that was free, with this
    channel as sender and nothing else set; every room that existed is
    left as it was; the channel becomes a sender bound to the new code and
    is sent exactly one frame, [code_generated] with that code; the answer
    never raises. *)
Theorem register_sender_creates_room draws fuel ws data h o h' :
  is_reg_sender data = true ->
  ws ∉ closed (hworld h) ->
  on_data draws fuel ws data h = (o, h') ->
  o <> Diverge ->
  exists code,
    o = Ok tt /\
    code_shape code /\
    rooms (hworld h) !! code = None /\
    rooms (hworld h') !! code = Some (new_room ws) /\
    (forall code' r, rooms (hworld h) !! code' = Some r ->
                     rooms (hworld h') !! code' = Some r) /\
    (forall code', code' <> code ->
                   rooms (hworld h') !! code' = rooms (hworld h) !! code') /\
    my_code h' = Some code /\ my_role h' = Some RSender /\
    sent (hworld h') = sent (hworld h) ++ [(ws, msg_code_generated code)] /\
    closed (hworld h') = closed (hworld h).
Proof.
  intros Hd Hopen Hrun Ho. rewrite on_data_register_sender in Hrun by done.
  destruct (register_sender_effect _ _ _ _ _ _ Hrun Ho)
    as (code & Hs & Hfree & Hmc & Hrl & Hrooms & Hcl & Hsend & _).
  destruct (Hsend Hopen) as [-> Hsent].
  exists code. rewrite Hrooms.
  split; [done|]. split; [done|]. split; [done|].
  split; [apply lookup_insert_eq|]. split.
  { intros code' r Hr. rewrite lookup_insert_ne; [done|]. congruence. }
  split; [intros code' Hne; by rewrite lookup_insert_ne|]. done.
Qed.

Lemma register_sender_creates_room_witness :
  exists code h',
    on_data counting 1 3 reg_sender (fresh w_paired) = (Ok tt, h') /\
    rooms (hworld h') !! code = Some (new_room 3) /\
    sent (hworld h') = sent w_paired ++ [(3, msg_code_generated code)].
Proof.
  destruct (on_data counting 1 3 reg_sender (fresh w_paired)) as [o h'] eqn:R.
  assert (Ho : o <> Diverge).
  { intros ->. apply (f_equal fst) in R. vm_compute in R. discriminate. }
  assert (Hopen : 3 ∉ closed (hworld (fresh w_paired))) by (vm_compute; set_solver).
  destruct (register_sender_creates_room counting 1 3 reg_sender (fresh w_paired) o h'
              eq_refl Hopen R Ho) as (code & -> & _ & _ & H1 & _ & _ & _ & _ & H2 & _).
  exists code, h'. split; [done|]. split; [exact H1|exact H2].
Defined.

(** ** From registration to join *)

Lemma upper_ascii_population c : c ∈ population -> upper_ascii c = c.
Proof.
  unfold population. simpl. intros H.
  repeat (apply elem_of_cons in H as [->|H]; [reflexivity|]).
  by apply elem_of_nil in H.
Qed.

Lemma upper_population s :
  Forall (fun c => c ∈ population) (list_ascii_of_string s) -> upper s = s.
Proof.
  induction s as [|c s IH]; simpl; [done|]. intros H.
  apply Forall_cons in H as [Hc Hs]. by rewrite upper_ascii_population, IH.
Qed.

(** The full effect of a join that binds, on the handler and the state. *)
Lemma join_notifies_sender_receiver_aux draws fuel ws d c h r sender_ws :
  dict_get "type" d = Some (JStr "register_receiver") ->
  dict_get "code" d = Some (JStr c) ->
  rooms (hworld h) !! upper c = Some r ->
  receiver r = None ->
  sender r = Some sender_ws ->
  sender_ws ∉ closed (hworld h) ->
  ws ∉ closed (hworld h) ->
  let res := on_data draws fuel ws (Parsed (JObj d)) h in
  fst res = Ok tt /\
  my_code (snd res) = Some (upper c) /\ my_role (snd res) = Some RReceiver /\
  rooms (hworld (snd res)) = <[upper c := set_receiver ws r]> (rooms (hworld h)) /\
  sent (hworld (snd res))
  = sent (hworld h) ++ [(sender_ws, msg_receiver_joined); (ws, msg_wating_for_file)].
Proof.
  intros Ht Hc Hr Hrc Hs Hso Hwo. rewrite on_data_register_receiver by done.
  unfold register_receiver, py_get, code_upper. unfold_m.
  rewrite Hc. simpl. rewrite Hr, Hrc, Hs. simpl.
  rewrite send_open by done. simpl. rewrite send_open by done. simpl.
  repeat split; try done. by rewrite <- app_assoc.
Qed.

(** X3: the code a sender is issued can be joined: it is its own upper-case
    form, and a join request that carries it in any letter case (any [c]
    whose upper-case form is the code), sent on any open channel right
    after the registration, binds that channel as the receiver of the new
    room, pushes [receiver_joined] to the sender and acknowledges the
    receiver. *)
Theorem issued_code_is_joinable draws fuel ws data h h1 ws2 mc2 mr2 d c :
  is_reg_sender data = true ->
  on_data draws fuel ws data h = (Ok tt, h1) ->
  ws2 ∉ closed (hworld h1) ->
  dict_get "type" d = Some (JStr "register_receiver") ->
  dict_get "code" d = Some (JStr c) ->
  exists code,
    my_code h1 = Some code /\
    upper code = code /\
    (upper c = code ->
     let h2 := {| my_code := mc2; my_role := mr2; hworld := hworld h1 |} in
     let res := on_data draws fuel ws2 (Parsed (JObj d)) h2 in
     fst res = Ok tt /\
     my_code (snd res) = Some code /\ my_role (snd res) = Some RReceiver /\
     (exists r', rooms (hworld (snd res)) !! code = Some r' /\
                 receiver r' = Some ws2 /\ sender r' = Some ws) /\
     (forall code', code' <> code ->
                    rooms (hworld (snd res)) !! code' = rooms (hworld h1) !! code') /\
     sent (hworld (snd res))
     = sent (hworld h1) ++ [(ws, msg_receiver_joined); (ws2, msg_wating_for_file)]).
Proof.
  intros Hd Hreg Hopen2 Ht Hc.
  rewrite on_data_register_sender in Hreg by done.
  destruct (register_sender_effect _ _ _ _ _ _ Hreg ltac:(discriminate))
    as (code & [Hlen Hpop] & Hfree & Hmc & _ & Hrooms & Hcl & _ & Hclosed).
  assert (Hopen : ws ∉ closed (hworld h1)).
  { rewrite Hcl. intros Hin. by destruct (Hclosed Hin). }
  exists code. split; [done|]. split; [by apply upper_population|].
  intros Hup h2 res. unfold res.
  assert (Hr : rooms (hworld h2) !! upper c = Some (new_room ws)).
  { simpl. by rewrite Hup, Hrooms, lookup_insert_eq. }
  destruct (join_notifies_sender_receiver_aux draws fuel ws2 d c h2 (new_room ws) ws
              Ht Hc Hr eq_refl eq_refl Hopen Hopen2) as (H1 & H2 & H3 & H4 & H5).
  rewrite Hup in *. split; [done|]. split; [done|]. split; [done|].
  rewrite H4. split; [|split; [|done]].
  - eexists. rewrite lookup_insert_eq. done.
  - intros code' Hne. by rewrite lookup_insert_ne.
Qed.

Lemma issued_code_is_joinable_witness :
  exists h1,
    on_data counting 1 1 reg_sender (fresh w0) = (Ok tt, h1) /\
    fst (on_data counting 1 2 (reg_receiver "abcde")
           {| my_code := None; my_role := None; hworld := hworld h1 |}) = Ok tt /\
    my_code (snd (on_data counting 1 2 (reg_receiver "abcde")
                    {| my_code := None; my_role := None; hworld := hworld h1 |}))
    = Some "ABCDE".
Proof.
  eexists. split; [by_eval|].
  match goal with |- fst (on_data _ _ _ _ {| hworld := hworld ?h |}) = _ /\ _ =>
    assert (R : on_data counting 1 1 reg_sender (fresh w0) = (Ok tt, h)) by by_eval;
    assert (Hopen : 2 ∉ closed (hworld h)) by (vm_compute; set_solver);
    destruct (issued_code_is_joinable counting 1 1 reg_sender (fresh w0) h 2 None None
                [("type", JStr "register_receiver"); ("code", JStr "abcde")] "abcde"
                eq_refl R Hopen eq_refl eq_refl) as (code & Hmc & _ & H)
  end.
  simpl in Hmc. injection Hmc as <-.
  destruct (H ltac:(by_eval)) as (H1 & H2 & _).
  split; [exact H1|exact H2].
Defined.

(** X13: a join request with an ASCII code on an open channel.  When the
    upper-cased code names no room, or a room whose receiver slot is taken,
    the channel is sent one error frame, the handler's binding and the
    registry stay as they were, and the loop reads the next frame.  When it
    names a room with a free slot whose sender, if any, has its connection
    open, the handler returns normally bound to the code as receiver, the
    room now has this channel as receiver with its sender and payload as
    before, no other room has changed, and the frames sent are
    [receiver_joined] to the sender and then the acknowledgement to the
    channel. *)
Theorem join_binds_or_refuses draws fuel ws d c h :
  dict_get "type" d = Some (JStr "register_receiver") ->
  dict_get "code" d = Some (JStr c) ->
  ascii_text c = true ->
  ws ∉ closed (hworld h) ->
  let code := upper c in
  let res := on_data draws fuel ws (Parsed (JObj d)) h in
  (rooms (hworld h) !! code = None \/
   (exists r c', rooms (hworld h) !! code = Some r /\ receiver r = Some c') ->
   fst res = Ok tt /\
   my_code (snd res) = my_code h /\ my_role (snd res) = my_role h /\
   rooms (hworld (snd res)) = rooms (hworld h) /\
   sent (hworld (snd res))
   = sent (hworld h)
     ++ [(ws, JObj [("type", JStr "error"); ("message", JStr "Invalid or expired code.")])] /\
   forall rest,
     receive_loop draws fuel ws (Parsed (JObj d) :: rest) h
     = receive_loop draws fuel ws rest (snd res)) /\
  (forall r,
     rooms (hworld h) !! code = Some r ->
     receiver r = None ->
     (forall s, sender r = Some s -> s ∉ closed (hworld h)) ->
     fst res = Ok tt /\
     my_code (snd res) = Some code /\ my_role (snd res) = Some RReceiver /\
     (exists r', rooms (hworld (snd res)) !! code = Some r' /\
                 receiver r' = Some ws /\ sender r' = sender r /\
                 filename r' = filename r /\ file_data r' = file_data r) /\
     (forall code', code' <> code ->
                    rooms (hworld (snd res)) !! code' = rooms (hworld h) !! code') /\
     sent (hworld (snd res))
     = sent (hworld h)
       ++ match sender r with
          | Some s => [(s, JObj [("type", JStr "receiver_joined")])]
          | None => []
          end
       ++ [(ws, JObj [("type", JStr "wating_for_file")])]).
Proof.
  intros Ht Hc _ Hopen code res. unfold res. split.
  - intros Hroom.
    assert (E : on_data draws fuel ws (Parsed (JObj d)) h
                = (Ok tt, {| my_code := my_code h; my_role := my_role h;
                             hworld := with_sent
                               (fun l => l ++ [(ws, msg_error "Invalid or expired code.")])
                               (hworld h) |})).
    { rewrite on_data_register_receiver by done.
      by apply (register_receiver_refused ws d c). }
    split; [by rewrite E|]. split; [by rewrite E|]. split; [by rewrite E|].
    split; [by rewrite E|]. split; [by rewrite E|].
    intros rest. by rewrite receive_loop_cons, E.
  - intros r Hr Hrc Hs. rewrite on_data_register_receiver by done.
    unfold register_receiver, py_get, code_upper. unfold_m.
    rewrite Hc. simpl. fold code. rewrite Hr, Hrc. simpl.
    destruct (sender r) as [s0|] eqn:Hsr; simpl.
    + rewrite send_open by (by apply Hs). simpl. rewrite send_open by done. simpl.
      split; [done|]. split; [done|]. split; [done|]. split.
      { eexists. rewrite lookup_insert_eq. done. }
      split; [intros code' Hne; by rewrite lookup_insert_ne|].
      by rewrite <- app_assoc.
    + rewrite send_open by done. simpl.
      split; [done|]. split; [done|]. split; [done|]. split.
      { eexists. rewrite lookup_insert_eq. done. }
      split; [intros code' Hne; by rewrite lookup_insert_ne|]. done.
Qed.

Lemma join_binds_or_refuses_witness :
  (exists r', rooms (hworld (snd (on_data counting 1 2 (reg_receiver "ab12c") (fresh w_waiting))))
                !! "AB12C" = Some r' /\ receiver r' = Some 2) /\
  sent (hworld (snd (on_data counting 1 2 (reg_receiver "zzzzz") (fresh w_waiting))))
  = sent w_waiting
    ++ [(2, JObj [("type", JStr "error"); ("message", JStr "Invalid or expired code.")])].
Proof.
  assert (O : 2 ∉ closed (hworld (fresh w_waiting))) by (vm_compute; set_solver).
  split.
  - assert (Hr : rooms (hworld (fresh w_waiting)) !! upper "ab12c" = Some (new_room 1))
      by by_eval.
    assert (Hs : forall s, sender (new_room 1) = Some s -> s ∉ closed (hworld (fresh w_waiting))).
    { intros s [= <-]. vm_compute. set_solver. }
    destruct (proj2 (join_binds_or_refuses counting 1 2
                [("type", JStr "register_receiver"); ("code", JStr "ab12c")] "ab12c"
                (fresh w_waiting) eq_refl eq_refl eq_refl O) (new_room 1) Hr eq_refl Hs)
      as (_ & _ & _ & (r' & H1 & H2 & _) & _).
    exists r'. split; [exact H1|exact H2].
  - assert (Hn : rooms (hworld (fresh w_waiting)) !! upper "zzzzz" = None) by by_eval.
    destruct (proj1 (join_binds_or_refuses counting 1 2
                [("type", JStr "register_receiver"); ("code", JStr "zzzzz")] "zzzzz"
                (fresh w_waiting) eq_refl eq_refl eq_refl O) (or_introl Hn))
      as (_ & _ & _ & _ & H & _).
    exact H.
Defined.

(** ** The two views *)

(** X5: [upload_file] never creates or removes a room and never touches the
    sender or receiver slot of any room; the only room whose entry can
    change is the one named by the form's code; the set of closed
    connections is left alone, and at most one frame is sent, which is then
    a [file_ready]. *)
Theorem upload_file_frame req w :
  let w' := snd (upload_file req w) in
  dom (rooms w') = dom (rooms w) /\
  closed w' = closed w /\
  (forall code', truthy (form_code req) <> Some code' ->
                 rooms w' !! code' = rooms w !! code') /\
  (forall code r, rooms w !! code = Some r ->
     exists r', rooms w' !! code = Some r' /\
                sender r' = sender r /\ receiver r' = receiver r) /\
  (sent w' = sent w \/
   exists c name size, sent w' = sent w ++ [(c, msg_file_ready name size)]).
Proof.
  unfold upload_file. unfold_m.
  assert (Hsame : dom (rooms w) = dom (rooms w) /\ closed w = closed w /\
    (forall code', truthy (form_code req) <> Some code' ->
                   rooms w !! code' = rooms w !! code') /\
    (forall code r, rooms w !! code = Some r ->
       exists r', rooms w !! code = Some r' /\
                  sender r' = sender r /\ receiver r' = receiver r) /\
    (sent w = sent w \/
     exists c name size, sent w = sent w ++ [(c, msg_file_ready name size)])).
  { split; [done|]. split; [done|]. split; [done|]. split; [|by left].
    intros code r Hr. by exists r. }
  destruct (files_file req) as [file|]; [|exact Hsame].
  destruct (truthy (form_code req)) as [code|]; [|exact Hsame].
  destruct (rooms w !! code) as [r|] eqn:Hr; [|exact Hsame].
  case_bool_decide; [exact Hsame|]. simpl.
  assert (Hupd : forall w2,
    rooms w2 = <[code := set_payload (fs_filename file) (fs_read file) r]> (rooms w) ->
    dom (rooms w2) = dom (rooms w) /\
    (forall code', Some code <> Some code' -> rooms w2 !! code' = rooms w !! code') /\
    (forall code0 r0, rooms w !! code0 = Some r0 ->
       exists r', rooms w2 !! code0 = Some r' /\
                  sender r' = sender r0 /\ receiver r' = receiver r0)).
  { intros w2 ->. split; [|split].
    - by apply dom_insert_lookup_L.
    - intros code' Hne. rewrite lookup_insert_ne; [done|]. congruence.
    - intros code0 r0 Hr0. destruct (decide (code = code0)) as [->|Hne].
      + eexists. rewrite lookup_insert_eq. split; [done|]. by simplify_eq.
      + exists r0. by rewrite lookup_insert_ne. }
  destruct (receiver r) as [c|]; simpl.
  - unfold send. simpl. case_decide; simpl.
    + destruct (Hupd (with_rooms (insert code (set_payload (fs_filename file)
                                                (fs_read file) r)) w) eq_refl)
        as (H1 & H2 & H3).
      split; [exact H1|]. split; [done|]. split; [exact H2|]. split; [exact H3|].
      by left.
    + destruct (Hupd (with_rooms (insert code (set_payload (fs_filename file)
                                                (fs_read file) r)) w) eq_refl)
        as (H1 & H2 & H3).
      split; [exact H1|]. split; [done|]. split; [exact H2|]. split; [exact H3|].
      right. by eexists _, _, _.
  - destruct (Hupd (with_rooms (insert code (set_payload (fs_filename file)
                                              (fs_read file) r)) w) eq_refl)
      as (H1 & H2 & H3).
    split; [exact H1|]. split; [done|]. split; [exact H2|]. split; [exact H3|].
    by left.
Qed.

(** ** The handler as a whole *)

(** X6: no exception leaves [websocket]: the [finally] block itself cannot
    raise (a notification that fails is swallowed), so unless a
    [generate_code] is still looping the handler returns normally, and the
    connection is closed when it does; connections that were closed stay
    closed. *)
Theorem websocket_never_raises draws fuel ws frames w :
  (forall h, fst (cleanup h) = Ok tt) /\
  (fst (websocket draws fuel ws frames w) = Ok tt \/
   fst (websocket draws fuel ws frames w) = Diverge) /\
  (fst (websocket draws fuel ws frames w) = Ok tt ->
   ws ∈ closed (snd (websocket draws fuel ws frames w)) /\
   forall c, c ∈ closed w -> c ∈ closed (snd (websocket draws fuel ws frames w))).
Proof.
  split; [intros h; apply cleanup_rooms|].
  assert (Hloop : forall fr h,
    closed (hworld h) ⊆ closed (hworld (snd (receive_loop draws fuel ws fr h)))).
  { induction fr as [|d fr IH]; intros h.
    - simpl. unfold_m. set_solver.
    - rewrite receive_loop_cons.
      pose proof (on_data_closed draws fuel ws d h) as Hcl.
      destruct (on_data draws fuel ws d h) as [[[]|e|] h1]; simpl in *.
      + rewrite <- Hcl. apply IH.
      + by rewrite Hcl.
      + by rewrite Hcl. }
  assert (Hclean : forall h, closed (hworld (snd (cleanup h))) = closed (hworld h)).
  { intros h. destruct (my_code h) as [code|] eqn:Hc.
    2:{ rewrite cleanup_nothing; [done|]. congruence. }
    destruct (decide (code = "")) as [->|Hne].
    { rewrite cleanup_nothing; [done|]. congruence. }
    destruct (rooms (hworld h) !! code) as [r|] eqn:Hr.
    - by destruct (cleanup_room h code r Hc Hne Hr) as (notice & -> & _).
    - rewrite cleanup_nothing; [done|]. congruence. }
  unfold websocket, bind, try_except_finally.
  specialize (Hloop frames (fresh w)).
  destruct (receive_loop draws fuel ws frames (fresh w)) as [[[]|e|] h1]; simpl in *.
  - specialize (Hclean h1). destruct (cleanup_ok h1) as [h2 E]. rewrite E in *.
    unfold_m. split; [by left|]. intros _. rewrite Hclean. split.
    + apply elem_of_union_l. by apply elem_of_singleton.
    + intros c Hc. apply elem_of_union_r. by apply Hloop.
  - specialize (Hclean h1). destruct (cleanup_ok h1) as [h2 E]. rewrite E in *.
    unfold_m. split; [by left|]. intros _. rewrite Hclean. split.
    + apply elem_of_union_l. by apply elem_of_singleton.
    + intros c Hc. apply elem_of_union_r. by apply Hloop.
  - split; [by right|]. done.
Qed.

Lemma websocket_never_raises_witness :
  1 ∈ closed (snd (websocket counting 1 1 [reg_sender; Malformed] w0)).
Proof.
  refine (proj1 (proj2 (proj2 (websocket_never_raises counting 1 1 [reg_sender; Malformed] w0))
           _)).
  by_eval.
Defined.

Lemma on_data_not_request draws fuel ws data h :
  is_request data = false ->
  snd (on_data draws fuel ws data h) = h /\
  fst (on_data draws fuel ws data h) <> Diverge.
Proof.
  destruct data as [| |message]; [done|done|].
  destruct message as [| | | | |d]; try done. simpl.
  intros H. apply orb_false_iff in H as [H1 H2]. unfold_m. by rewrite H1, H2.
Qed.

Lemma receive_loop_not_request draws fuel ws frames h :
  Forall (fun f => is_request f = false) frames ->
  exists e h', receive_loop draws fuel ws frames h = (Raise e, h') /\
               (h' = h \/ h' = snd (in_world (close ws) h)).
Proof.
  induction 1 as [|d rest Hd _ IH].
  - simpl. unfold_m. eexists _, _. split; [done|]. by right.
  - rewrite receive_loop_cons.
    destruct (on_data_not_request draws fuel ws d h Hd) as [Hs Ho].
    destruct (on_data draws fuel ws d h) as [[[]|e|] h1]; simpl in *; subst h1.
    + exact IH.
    + eexists _, _. split; [done|]. by left.
    + done.
Qed.

(** X7: a connection that never sends a request leaves no trace: whatever
    else it sends (empty frames, unknown types, frames that end the
    handler), the registry and the frames sent are as before, and the only
    change is that the connection is closed. *)
Theorem idle_connection_leaves_no_trace draws fuel ws frames w :
  Forall (fun f => is_request f = false) frames ->
  exists w',
    websocket draws fuel ws frames w = (Ok tt, w') /\
    rooms w' = rooms w /\ sent w' = sent w /\ rpos w' = rpos w /\
    closed w' = {[ws]} ∪ closed w.
Proof.
  intros Hall.
  destruct (receive_loop_not_request draws fuel ws frames (fresh w) Hall)
    as (e & h' & Hloop & Hh).
  unfold websocket, bind, try_except_finally. rewrite Hloop.
  destruct Hh as [->| ->]; simpl; unfold_m.
  - eexists. split; [done|]. done.
  - eexists. split; [done|]. simpl. repeat split; try done.
    apply set_eq. intros x. rewrite !elem_of_union. tauto.
Qed.

Lemma idle_connection_leaves_no_trace_witness :
  exists w',
    websocket counting 1 7 [Falsy; Parsed (JObj [("type", JStr "ping")]); Malformed]
      w_paired = (Ok tt, w') /\
    rooms w' = rooms w_paired /\ sent w' = sent w_paired.
Proof.
  destruct (idle_connection_leaves_no_trace counting 1 7
              [Falsy; Parsed (JObj [("type", JStr "ping")]); Malformed] w_paired)
    as (w' & H & Hr & Hs & _).
  - repeat constructor.
  - exists w'. split; [|by split]. exact H.
Defined.

(** ** How the registry can change *)

Lemma register_receiver_rooms ws message h :
  let m := rooms (hworld h) in
  let m' := rooms (hworld (snd (register_receiver ws message h))) in
  m' = m \/
  exists code r, m !! code = Some r /\ receiver r = None /\
                 m' = <[code := set_receiver ws r]> m.
Proof.
  unfold register_receiver, py_get, code_upper. unfold_m.
  destruct message as [| | | | |d]; try (by left). simpl.
  destruct (dict_get "code" d) as [[| | |c| |]|]; try (by left); simpl.
  - destruct (rooms (hworld h) !! upper c) as [r|] eqn:Hr; simpl.
    + destruct (receiver r) as [c0|] eqn:Hrc; simpl.
      * left. unfold send. by case_decide.
      * right. exists (upper c), r. split; [done|]. split; [done|].
        destruct (sender r); simpl; unfold send; simpl;
          repeat (case_decide; simpl); done.
    + left. unfold send. by case_decide.
  - destruct (rooms (hworld h) !! "") as [r|] eqn:Hr; simpl.
    + destruct (receiver r) as [c0|] eqn:Hrc; simpl.
      * left. unfold send. by case_decide.
      * right. exists "", r. split; [done|]. split; [done|].
        destruct (sender r); simpl; unfold send; simpl;
          repeat (case_decide; simpl); done.
    + left. unfold send. by case_decide.
Qed.

Lemma on_data_rooms draws fuel ws data h :
  fst (on_data draws fuel ws data h) <> Diverge ->
  let m := rooms (hworld h) in
  let m' := rooms (hworld (snd (on_data draws fuel ws data h))) in
  m' = m \/
  (exists code, code_shape code /\ m !! code = None /\ m' = <[code := new_room ws]> m) \/
  (exists code r, m !! code = Some r /\ receiver r = None /\
                  m' = <[code := set_receiver ws r]> m).
Proof.
  intros Ho. destruct data as [| |message]; [by left|by left|].
  unfold on_data in *. unfold py_get in *. unfold_m.
  destruct message as [| | | | |d]; try (by left). simpl in *.
  destruct (is_type (dict_get "type" d) "register_sender").
  - right. left. destruct (register_sender draws fuel ws h) as [o h'] eqn:E.
    destruct (register_sender_effect _ _ _ _ _ _ E Ho) as (code & Hs & Hf & _ & _ & Hr & _).
    by exists code.
  - destruct (is_type (dict_get "type" d) "register_receiver"); [|by left].
    destruct (register_receiver_rooms ws (JObj d) h) as [H|H]; [by left|by right; right].
Qed.

Lemma upload_file_rooms req w :
  let m := rooms w in
  let m' := rooms (snd (upload_file req w)) in
  m' = m \/
  exists code r name data, m !! code = Some r /\ m' = <[code := set_payload name data r]> m.
Proof.
  unfold upload_file. unfold_m.
  destruct (files_file req) as [file|]; [|by left].
  destruct (truthy (form_code req)) as [code|]; [|by left].
  destruct (rooms w !! code) as [r|] eqn:Hr; [|by left].
  case_bool_decide; [by left|]. simpl. right.
  exists code, r, (fs_filename file), (fs_read file). split; [done|].
  destruct (receiver r); [|done]. unfold send. simpl. by case_decide.
Qed.

Lemma leave_rooms ws s h :
  rooms (sworld (leave ws s h)) = rooms (hworld h) \/
  exists code, rooms (sworld (leave ws s h)) = delete code (rooms (hworld h)).
Proof.
  unfold leave, bind. destruct (cleanup_ok h) as [h' E].
  pose proof (cleanup_rooms h) as [_ H]. rewrite E in *. unfold_m.
  destruct H as [H|(code & _ & H)]; [by left|right; by exists code].
Qed.

(** Every change [step] makes to the registry is one of: nothing; a new
    room under a fresh code; the receiver slot of a room filled; the payload
    of a room stored; followed, when a handler leaves, by the removal of at
    most one room. *)
Lemma step_rooms draws fuel s e s' :
  step draws fuel s e = Some s' ->
  let m := rooms (sworld s) in
  exists m1,
    (m1 = m \/
     (exists code ws, code_shape code /\ m !! code = None /\ m1 = <[code := new_room ws]> m) \/
     (exists code r ws, m !! code = Some r /\ receiver r = None /\
                        m1 = <[code := set_receiver ws r]> m) \/
     (exists code r name data, m !! code = Some r /\
                               m1 = <[code := set_payload name data r]> m)) /\
    (rooms (sworld s') = m1 \/ exists code, rooms (sworld s') = delete code m1).
Proof.
  intros Hstep. destruct e as [ws d|ws|req|c]; simpl in *.
  - destruct (decide (ws ∈ closed (sworld s)));
      [injection Hstep as <-; exists (rooms (sworld s)); split; by left|].
    pose proof (on_data_rooms draws fuel ws d (handler_of s ws)) as K.
    rewrite handler_of_world in K.
    destruct (on_data draws fuel ws d (handler_of s ws)) as [[[]|e|] h] eqn:E;
      simpl in *; [| |done].
    + injection Hstep as <-. simpl. exists (rooms (hworld h)). split; [|by left].
      destruct (K ltac:(done)) as [HK|[(code & HK)|(code & r & HK)]].
      * by left.
      * right; left. by exists code, ws.
      * right; right; left. by exists code, r, ws.
    + injection Hstep as <-. exists (rooms (hworld h)). split; [|apply leave_rooms].
      destruct (K ltac:(done)) as [HK|[(code & HK)|(code & r & HK)]].
      * by left.
      * right; left. by exists code, ws.
      * right; right; left. by exists code, r, ws.
  - destruct (decide (ws ∈ closed (sworld s)));
      [injection Hstep as <-; exists (rooms (sworld s)); split; by left|].
    injection Hstep as <-. exists (rooms (sworld s)). split; [by left|].
    pose proof (leave_rooms ws s (snd (in_world (close ws) (handler_of s ws)))) as L.
    assert (Hw : rooms (hworld (snd (in_world (close ws) (handler_of s ws))))
                 = rooms (sworld s)).
    { unfold in_world, close, modify. simpl. by rewrite handler_of_world. }
    rewrite Hw in L. exact L.
  - injection Hstep as <-. simpl. exists (rooms (snd (upload_file req (sworld s)))).
    split; [|by left].
    destruct (upload_file_rooms req (sworld s)) as [H|(code & r & name & data & H)].
    + by left.
    + right; right; right. by exists code, r, name, data.
  - injection Hstep as <-. simpl. rewrite download_file_pure.
    exists (rooms (sworld s)). split; by left.
Qed.

Lemma registry_ok_step draws fuel s e s' :
  registry_ok (sworld s) ->
  step draws fuel s e = Some s' ->
  registry_ok (sworld s').
Proof.
  intros Hok Hstep.
  destruct (step_rooms draws fuel s e s' Hstep) as (m1 & Hm1 & Hm').
  assert (Hok1 : forall code r, m1 !! code = Some r -> code_shape code /\ room_ok r).
  { intros code r Hr.
    destruct Hm1 as [->|[(c & ws & Hs & Hf & ->)|[(c & r0 & ws & Hr0 & Hrc & ->)
                    |(c & r0 & name & data & Hr0 & ->)]]].
    - by apply Hok.
    - destruct (decide (c = code)) as [->|Hne].
      + rewrite lookup_insert_eq in Hr. injection Hr as <-. split; [done|].
        split; [by eexists|]. simpl. split; intros [? [=]].
      + rewrite lookup_insert_ne in Hr by done. by apply Hok.
    - destruct (decide (c = code)) as [->|Hne].
      + rewrite lookup_insert_eq in Hr. injection Hr as <-.
        destruct (Hok code r0 Hr0) as [Hs [H1 H2]]. done.
      + rewrite lookup_insert_ne in Hr by done. by apply Hok.
    - destruct (decide (c = code)) as [->|Hne].
      + rewrite lookup_insert_eq in Hr. injection Hr as <-.
        destruct (Hok code r0 Hr0) as [Hs [H1 H2]]. split; [done|].
        split; [done|]. simpl. split; intros _; by eexists.
      + rewrite lookup_insert_ne in Hr by done. by apply Hok. }
  intros code r Hr. destruct Hm' as [Hm'|[c Hm']]; rewrite Hm' in Hr.
  - by apply Hok1.
  - apply lookup_delete_Some in Hr as [_ Hr]. by apply Hok1.
Qed.

(** X8: the registry stays well formed along every run of the server: each key
    of [rooms] is a five-character code of upper-case letters and digits,
    each room has its sender slot filled, and [filename] and [file_data] are
    either both set or both unset.  The registry of a server that has just
    started is well formed. *)
Theorem registry_stays_well_formed draws fuel s es s' :
  registry_ok (sworld s) ->
  run draws fuel s es = Some s' ->
  registry_ok (sworld s') /\ registry_ok w0.
Proof.
  intros Hok Hrun. split; [|by intros code r Hr].
  revert s Hok Hrun. induction es as [|e es IH]; intros s Hok Hrun; simpl in *.
  - by injection Hrun as <-.
  - destruct (step draws fuel s e) as [s1|] eqn:Hstep; [|done].
    apply (IH s1); [|done]. by eapply registry_ok_step.
Qed.

Lemma registry_stays_well_formed_witness :
  exists s', run counting 1 sys0 twice_registered = Some s' /\ registry_ok (sworld s').
Proof.
  eexists. split; [by_eval|].
  match goal with |- registry_ok (sworld ?s) =>
    assert (R : run counting 1 sys0 twice_registered = Some s) by by_eval;
    assert (H0 : registry_ok (sworld sys0)) by (by intros code r Hr);
    exact (proj1 (registry_stays_well_formed counting 1 sys0 twice_registered s H0 R))
  end.
Defined.

(** X9: while a room stays registered, no event of the server changes its
    sender, replaces or clears a bound receiver, or removes a stored
    payload. *)
Theorem room_slots_are_stable draws fuel s e s' code r r' :
  step draws fuel s e = Some s' ->
  rooms (sworld s) !! code = Some r ->
  rooms (sworld s') !! code = Some r' ->
  sender r' = sender r /\
  (forall c, receiver r = Some c -> receiver r' = Some c) /\
  (is_Some (file_data r) -> is_Some (file_data r')).
Proof.
  intros Hstep Hr Hr'.
  destruct (step_rooms draws fuel s e s' Hstep) as (m1 & Hm1 & Hm').
  assert (Hr1 : m1 !! code = Some r').
  { destruct Hm' as [Hm'|[c Hm']]; rewrite Hm' in Hr'; [done|].
    by apply lookup_delete_Some in Hr' as [_ Hr']. }
  destruct Hm1 as [->|[(c & ws & Hs & Hf & ->)|[(c & r0 & ws & Hr0 & Hrc & ->)
                  |(c & r0 & name & data & Hr0 & ->)]]].
  - by simplify_eq.
  - rewrite lookup_insert_ne in Hr1 by congruence. by simplify_eq.
  - destruct (decide (c = code)) as [->|Hne].
    + rewrite lookup_insert_eq in Hr1. simplify_eq. simpl.
      split; [done|]. split; [intros c; by rewrite Hrc|]. done.
    + rewrite lookup_insert_ne in Hr1 by done. by simplify_eq.
  - destruct (decide (c = code)) as [->|Hne].
    + rewrite lookup_insert_eq in Hr1. simplify_eq. simpl.
      split; [done|]. split; [done|]. intros _. by eexists.
    + rewrite lookup_insert_ne in Hr1 by done. by simplify_eq.
Qed.

Lemma room_slots_are_stable_witness :
  exists s s' r r',
    run counting 1 sys0 [EvRecv 1 reg_sender; EvRecv 2 (reg_receiver "abcde")] = Some s /\
    step counting 1 s
      (EvUpload {| form_code := Some "ABCDE"; files_file := Some report_pdf |}) = Some s' /\
    rooms (sworld s) !! "ABCDE" = Some r /\
    rooms (sworld s') !! "ABCDE" = Some r' /\
    sender r' = sender r /\ receiver r' = Some 2.
Proof.
  eexists. eexists. eexists. eexists.
  match goal with |- _ = Some ?s /\ _ = Some ?s' /\ _ = Some ?r /\ _ = Some ?r' /\ _ =>
    assert (R : run counting 1 sys0 [EvRecv 1 reg_sender; EvRecv 2 (reg_receiver "abcde")]
                = Some s) by by_eval;
    assert (U : step counting 1 s
                  (EvUpload {| form_code := Some "ABCDE"; files_file := Some report_pdf |})
                = Some s') by by_eval;
    assert (L : rooms (sworld s) !! "ABCDE" = Some r) by by_eval;
    assert (L' : rooms (sworld s') !! "ABCDE" = Some r') by by_eval;
    destruct (room_slots_are_stable counting 1 s _ s' "ABCDE" r r' U L L') as (H1 & H2 & _)
  end.
  split; [exact R|]. split; [exact U|]. split; [exact L|]. split; [exact L'|].
  split; [exact H1|]. exact (H2 2 eq_refl).
Defined.

(** ** After a teardown *)

Lemma cleanup_room_gone h code r :
  my_code h = Some code -> code <> "" -> rooms (hworld h) !! code = Some r ->
  rooms (hworld (snd (cleanup h))) !! code = None /\
  closed (hworld (snd (cleanup h))) = closed (hworld h).
Proof.
  intros Hc Hne Hr. destruct (cleanup_room h code r Hc Hne Hr) as (notice & -> & _).
  simpl. split; [apply lookup_delete_eq|done].
Qed.

(** X10: when both peers of a room go away, the room is torn down once: the
    [finally] block of the second handler finds its code no longer
    registered, removes nothing, sends nothing and does not raise. *)
Theorem second_teardown_is_noop h1 h2 code r :
  my_code h1 = Some code ->
  code <> "" ->
  rooms (hworld h1) !! code = Some r ->
  my_code h2 = Some code ->
  hworld h2 = hworld (snd (cleanup h1)) ->
  cleanup h2 = (Ok tt, h2).
Proof.
  intros Hc Hne Hr Hc2 Hw. apply cleanup_nothing. intros code' Hc' _.
  assert (code' = code) as -> by congruence.
  rewrite Hw. by apply (cleanup_room_gone h1 code r).
Qed.

(** X11: once its room is torn down a code is dead for the other operations
    too: an upload that names it is answered 400 [Invalid request] and
    changes nothing, and a join that carries it (in any letter case) is
    answered with the error frame and binds nothing. *)
Theorem torn_down_code_is_dead h code r :
  my_code h = Some code ->
  code <> "" ->
  rooms (hworld h) !! code = Some r ->
  let w' := hworld (snd (cleanup h)) in
  (forall req, form_code req = Some code ->
     upload_file req w' = (Ok (Text "Invalid request" 400), w')) /\
  (forall draws fuel ws d c mc mr,
     dict_get "type" d = Some (JStr "register_receiver") ->
     dict_get "code" d = Some (JStr c) ->
     upper c = code ->
     ws ∉ closed w' ->
     on_data draws fuel ws (Parsed (JObj d)) {| my_code := mc; my_role := mr; hworld := w' |}
     = (Ok tt, {| my_code := mc; my_role := mr;
                  hworld := with_sent (fun l => l ++ [(ws, msg_error "Invalid or expired code.")])
                              w' |})).
Proof.
  intros Hc Hne Hr w'.
  destruct (cleanup_room_gone h code r Hc Hne Hr) as [Hgone _]. fold w' in Hgone.
  split.
  - intros req Hreq. unfold upload_file. unfold_m. rewrite Hreq. unfold truthy.
    rewrite bool_decide_eq_false_2 by done. rewrite Hgone.
    by destruct (files_file req).
  - intros draws fuel ws d c mc mr Ht Hd Hup Hopen.
    rewrite on_data_register_receiver by done.
    rewrite (register_receiver_refused ws d c); [done|done|done|].
    left. simpl. by rewrite Hup.
Qed.

Lemma torn_down_code_is_dead_witness :
  exists h,
    receive_loop counting 1 1 [reg_sender] (fresh w0) = (Raise ConnectionClosed, h) /\
    upload_file {| form_code := Some "ABCDE"; files_file := Some report_pdf |}
      (hworld (snd (cleanup h)))
    = (Ok (Text "Invalid request" 400), hworld (snd (cleanup h))).
Proof.
  eexists. split; [by_eval|].
  match goal with |- upload_file _ (hworld (snd (cleanup ?h))) = _ =>
    assert (Hr : rooms (hworld h) !! "ABCDE" = Some (new_room 1)) by by_eval;
    exact (proj1 (torn_down_code_is_dead h "ABCDE" (new_room 1) eq_refl
                    ltac:(discriminate) Hr)
             {| form_code := Some "ABCDE"; files_file := Some report_pdf |} eq_refl)
  end.
Defined.

Lemma second_teardown_is_noop_witness :
  exists h1,
    receive_loop counting 1 1 [reg_sender] (fresh w0) = (Raise ConnectionClosed, h1) /\
    cleanup {| my_code := Some "ABCDE"; my_role := Some RReceiver;
               hworld := hworld (snd (cleanup h1)) |}
    = (Ok tt, {| my_code := Some "ABCDE"; my_role := Some RReceiver;
                 hworld := hworld (snd (cleanup h1)) |}).
Proof.
  eexists. split; [by_eval|].
  match goal with |- cleanup {| hworld := hworld (snd (cleanup ?h)) |} = _ =>
    assert (Hr : rooms (hworld h) !! "ABCDE" = Some (new_room 1)) by by_eval;
    exact (second_teardown_is_noop h
             {| my_code := Some "ABCDE"; my_role := Some RReceiver;
                hworld := hworld (snd (cleanup h)) |}
             "ABCDE" (new_room 1) eq_refl ltac:(discriminate) Hr eq_refl eq_refl)
  end.
Defined.

(** ** Joining a room whose sender is gone *)

(** X12: a join that finds a free receiver slot in a room whose sender's
    connection is already closed binds, then fails on the
    [receiver_joined] push: the exception ends the joiner's handler, whose
    [finally] block removes the room; the joiner is sent nothing, neither
    the acknowledgement nor an error, and the frames after the join are not
    read. *)
Theorem join_on_room_of_gone_sender draws fuel ws d c h r sender_ws rest :
  dict_get "type" d = Some (JStr "register_receiver") ->
  dict_get "code" d = Some (JStr c) ->
  upper c <> "" ->
  rooms (hworld h) !! upper c = Some r ->
  receiver r = None ->
  sender r = Some sender_ws ->
  sender_ws ∈ closed (hworld h) ->
  let res := try_except_finally (receive_loop draws fuel ws (Parsed (JObj d) :: rest))
               cleanup h in
  fst (receive_loop draws fuel ws (Parsed (JObj d) :: rest) h) = Raise ConnectionClosed /\
  fst res = Ok tt /\
  rooms (hworld (snd res)) = delete (upper c) (rooms (hworld h)) /\
  sent (hworld (snd res)) = sent (hworld h) /\
  closed (hworld (snd res)) = closed (hworld h).
Proof.
  intros Ht Hc Hne Hr Hrc Hs Hgone res.
  set (h1 := {| my_code := Some (upper c); my_role := Some RReceiver;
                hworld := with_rooms (insert (upper c) (set_receiver ws r)) (hworld h) |}).
  assert (E : receive_loop draws fuel ws (Parsed (JObj d) :: rest) h
              = (Raise ConnectionClosed, h1)).
  { rewrite receive_loop_cons, on_data_register_receiver by done.
    unfold register_receiver, py_get, code_upper. unfold_m.
    rewrite Hc. simpl. rewrite Hr, Hrc, Hs. simpl.
    by rewrite send_closed. }
  assert (Hr1 : rooms (hworld h1) !! upper c = Some (set_receiver ws r)).
  { simpl. apply lookup_insert_eq. }
  destruct (cleanup_room h1 (upper c) (set_receiver ws r) eq_refl Hne Hr1)
    as (notice & Ecl & _ & _ & _ & N & _).
  assert (Hn : notice = []) by (by apply (N sender_ws)).
  subst notice. unfold res, try_except_finally. rewrite E, Ecl. simpl.
  split; [done|]. split; [done|]. split; [apply delete_insert_eq|].
  split; [apply app_nil_r|done].
Qed.

Lemma join_on_room_of_gone_sender_witness :
  exists s,
    run counting 1 sys0 [EvRecv 1 reg_sender; EvRecv 1 reg_sender; EvClose 1] = Some s /\
    rooms (hworld (snd (try_except_finally
                          (receive_loop counting 1 2 [reg_receiver "abcde"; reg_sender])
                          cleanup (fresh (sworld s)))))
    = delete "ABCDE" (rooms (sworld s)) /\
    sent (hworld (snd (try_except_finally
                         (receive_loop counting 1 2 [reg_receiver "abcde"; reg_sender])
                         cleanup (fresh (sworld s)))))
    = sent (sworld s).
Proof.
  eexists. split; [by_eval|].
  match goal with |- rooms _ = delete _ (rooms (sworld ?s)) /\ _ =>
    assert (Hr : rooms (hworld (fresh (sworld s))) !! upper "abcde" = Some (new_room 1))
      by by_eval;
    assert (Hg : 1 ∈ closed (hworld (fresh (sworld s)))) by (vm_compute; set_solver);
    assert (Hne : upper "abcde" <> "") by (vm_compute; discriminate);
    destruct (join_on_room_of_gone_sender counting 1 2
                [("type", JStr "register_receiver"); ("code", JStr "abcde")] "abcde"
                (fresh (sworld s)) (new_room 1) 1 [reg_sender]
                eq_refl eq_refl Hne Hr eq_refl eq_refl Hg) as (_ & _ & H1 & H2 & _)
  end.
  split; [exact H1|exact H2].
Defined.
